(** * x-sessions: session-key signing for a Starknet account

    A shallow embedding of [src/sessionDappService.ts] (the dapp-side
    signer that builds the session token) and of the two
    [OffchainSessionAccount] classes (which prepend the session call to a
    batch), followed by the properties the specification states about them.

    JavaScript values are modelled as the code uses them: field elements
    travel as hex strings or as [BigNumberish] values, arrays as lists,
    objects as records, [undefined] as [None] or [RUndefined], a thrown
    [Error] as [Throw message].  An [async] method is a computation that
    extends a trace of the calls made to collaborators (the signing
    primitive, the backend, the wallet), so that what was signed and what
    was submitted can be observed.  The starknet.js functions the source
    imports are the fields of the class [StarknetJs]; the helpers of this
    repository that the source imports from sibling modules are the fields
    of [SessionUtils]. *)

From Stdlib Require Import String Ascii List ZArith Bool Lia DecimalString DecimalZ.
Import ListNotations.
Local Open Scope string_scope.
Local Open Scope Z_scope.
#[local] Set Warnings "-register-all".

(** ** JavaScript values *)

(** [BigNumberish = string | number | bigint]. *)
Inductive BigNumberish : Type :=
| BNstring (s : string)
| BNnumber (n : Z)
| BNbigint (n : Z).

(** The outcome of evaluating an expression that may throw. *)
Inductive Result (A : Type) : Type :=
| Ok (value : A)
| Throw (message : string).
Arguments Ok {A} value.
Arguments Throw {A} message.

Definition result_bind {A B : Type} (r : Result A) (k : A -> Result B) : Result B :=
  match r with
  | Ok a => k a
  | Throw m => Throw m
  end.

(** [Array.prototype.map] with a callback that may throw: the first throw
    aborts the traversal. *)
Fixpoint map_result {A B : Type} (f : A -> Result B) (l : list A) : Result (list B) :=
  match l with
  | [] => Ok []
  | x :: rest =>
      result_bind (f x) (fun y =>
      result_bind (map_result f rest) (fun ys => Ok (y :: ys)))
  end.

(** [Array.prototype.findIndex]: the index of the first element satisfying
    the predicate, [-1] when there is none. *)
Fixpoint findIndex_from {A : Type} (p : A -> bool) (l : list A) (i : Z) : Z :=
  match l with
  | [] => -1
  | x :: rest => if p x then i else findIndex_from p rest (i + 1)
  end.

Definition findIndex {A : Type} (p : A -> bool) (l : list A) : Z :=
  findIndex_from p l 0.

(** [arr[i]] for an integer [i]: [undefined] outside [0 .. length-1]. *)
Definition js_index {A : Type} (l : list A) (i : Z) : option A :=
  if i <? 0 then None else nth_error l (Z.to_nat i).

(** [Array.prototype.includes] on strings. *)
Definition includes (l : list string) (s : string) : bool :=
  existsb (String.eqb s) l.

(** Unary plus on a boolean: [+false = 0], [+true = 1]. *)
Definition unary_plus (b : bool) : Z := if b then 1 else 0.

(** The arguments accepted by [CallData.compile]: a tree of objects (with
    their keys in insertion order), arrays and leaves.  A
    [CairoCustomEnum] carries its [variant] object, the inactive variants
    being [undefined]. *)
Inductive RawArg : Type :=
| RUndefined
| RBool (b : bool)
| RFelt (v : BigNumberish)
| RArray (items : list RawArg)
| RObject (fields : list (string * RawArg))
| RCustomEnum (variant : list (string * RawArg)).

Definition TypedData : Type := RawArg.

(** ** Asynchronous computations with a trace of collaborator calls *)

Definition Async (E A : Type) : Type := list E -> Result A * list E.

Definition ret {E A : Type} (a : A) : Async E A := fun tr => (Ok a, tr).

Definition throw {E A : Type} (m : string) : Async E A := fun tr => (Throw m, tr).

Definition bind {E A B : Type} (c : Async E A) (k : A -> Async E B) : Async E B :=
  fun tr =>
    match c tr with
    | (Ok a, tr') => k a tr'
    | (Throw m, tr') => (Throw m, tr')
    end.

Definition emit {E : Type} (e : E) : Async E unit := fun tr => (Ok tt, (tr ++ [e])%list).

Definition lift {E A : Type} (r : Result A) : Async E A := fun tr => (r, tr).

Declare Scope async_scope.
Delimit Scope async_scope with async.
Notation "x <- c ;; k" := (bind c (fun x => k))
  (at level 61, c at next level, right associativity) : async_scope.
Notation "c ;;; k" := (bind c (fun _ => k))
  (at level 61, right associativity) : async_scope.

(** [try { c } catch (e) { h }] *)
Definition try_catch {E A : Type} (c : Async E A) (h : string -> Async E A) : Async E A :=
  fun tr =>
    match c tr with
    | (Ok a, tr') => (Ok a, tr')
    | (Throw m, tr') => h m tr'
    end.

(** ** Data of the session protocol *)

(** [calldata?: RawArgs | Calldata] *)
Inductive CallCalldata : Type :=
| RawArgs (args : RawArg)
| Calldata (compiled : list string).

Record Call : Type := {
  contractAddress : string;
  entrypoint : string;
  calldata : option CallCalldata
}.

(** [calls: Call | Call[]] *)
Inductive CallOrCalls : Type :=
| OneCall (call : Call)
| ManyCalls (calls : list Call).

Record AllowedMethod : Type := {
  Contract_Address : string;       (* the key is "Contract Address" *)
  selector : string
}.

Record OffChainSession : Type := {
  expires_at : BigNumberish;
  allowed_methods : list AllowedMethod;
  metadata : string;
  session_key_guid : BigNumberish
}.

Record OnChainSession : Type := {
  oc_expires_at : BigNumberish;
  allowed_methods_root : string;
  metadata_hash : string;
  oc_session_key_guid : BigNumberish
}.

Record DappKey : Type := {
  privateKey : list Byte.byte;
  publicKey : string
}.

Record BackendSignatureResponse : Type := {
  bs_publicKey : string;
  bs_r : Z;
  bs_s : Z
}.

Record SessionToken : Type := {
  session : OnChainSession;
  cache_authorization : bool;
  session_authorization : list string;
  sessionSignature : RawArg;
  guardianSignature : RawArg;
  proofs : list (list string)
}.

(** ** starknet.js types used by the signer *)

Inductive EDataAvailabilityMode : Type := L1 | L2.

Record ResourceBound : Type := {
  max_amount : string;
  max_price_per_unit : string
}.

Record ResourceBounds : Type := {
  l1_gas : ResourceBound;
  l2_gas : ResourceBound
}.

(** [InvocationsSignerDetails] is the union of the V2 and the V3 details;
    at run time it is one object on which the fields of the other variant
    are absent. *)
Record InvocationsSignerDetails : Type := {
  walletAddress : string;
  cairoVersion : option string;
  chainId_of : string;
  nonce : BigNumberish;
  version : string;
  maxFee : option BigNumberish;
  resourceBounds : option ResourceBounds;
  tip : option BigNumberish;
  paymasterData : option (list BigNumberish);
  accountDeploymentData : option (list BigNumberish);
  nonceDataAvailabilityMode : option EDataAvailabilityMode;
  feeDataAvailabilityMode : option EDataAvailabilityMode
}.

Record WeierstrassSignature : Type := {
  sig_r : Z;
  sig_s : Z
}.

Record ByteArray : Type := {
  data : list BigNumberish;
  pending_word : BigNumberish;
  pending_word_len : Z
}.

(** [merkle.MerkleTree]: the public fields of the class. *)
Record MerkleTree : Type := {
  leaves : list string;
  branches : list (list string);
  root : string
}.

(** [RPC.ETransactionVersion2] and [RPC.ETransactionVersion3]
    ([Object.values], in declaration order).  The query versions are
    [2^128 + n]. *)
Definition query_version (digit : string) : string :=
  "0x1" ++ "0000000000000000000000000000000" ++ digit.

Definition ETransactionVersion2 : list string :=
  ["0x0"; "0x1"; "0x2"; query_version "0"; query_version "1"; query_version "2"].

Definition ETransactionVersion3 : list string :=
  ["0x3"; query_version "3"].

(** The enum [EDAMode]: the integer code of each mode. *)
Definition EDAMode (dam : EDataAvailabilityMode) : Z :=
  match dam with
  | L1 => 0
  | L2 => 1
  end.

(** [stark.intDAM]: the integer code of a data-availability mode; it
    throws on anything that is not a mode. *)
Definition intDAM (dam : option EDataAvailabilityMode) : Result Z :=
  match dam with
  | Some mode => Ok (EDAMode mode)
  | None => Throw "EDAM conversion"
  end.

(** [shortString.encodeShortString]: the hex string of the character
    codes of an ASCII string of at most 31 characters. *)
Definition hex_digit (n : nat) : ascii :=
  match n with
  | 0 => "0" | 1 => "1" | 2 => "2" | 3 => "3" | 4 => "4" | 5 => "5" | 6 => "6"
  | 7 => "7" | 8 => "8" | 9 => "9" | 10 => "a" | 11 => "b" | 12 => "c"
  | 13 => "d" | 14 => "e" | _ => "f"
  end%char%nat.

(** [code.toString(16)] for a character code below 256 (no padding). *)
Definition charCode_toString16 (c : ascii) : string :=
  let n := nat_of_ascii c in
  if Nat.ltb n 16 then String (hex_digit n) EmptyString
  else String (hex_digit (Nat.div n 16)) (String (hex_digit (Nat.modulo n 16)) EmptyString).

Definition isASCII (s : string) : bool :=
  forallb (fun c => Nat.ltb (nat_of_ascii c) 128) (list_ascii_of_string s).

(** [str.replace(/./g, f)]: the dot does not match line terminators. *)
Fixpoint replace_each_char (s : string) : string :=
  match s with
  | EmptyString => EmptyString
  | String c rest =>
      let n := nat_of_ascii c in
      if (Nat.eqb n 10 || Nat.eqb n 13)%bool
      then String c (replace_each_char rest)
      else charCode_toString16 c ++ replace_each_char rest
  end.

Definition encodeShortString (str : string) : Result string :=
  if negb (isASCII str) then Throw (str ++ " is not an ASCII string")
  else if negb (Nat.leb (String.length str) 31) then Throw (str ++ " is too long")
  else Ok ("0x" ++ replace_each_char str).

Definition SESSION_MAGIC : string :=
  match encodeShortString "session-token" with
  | Ok s => s
  | Throw _ => ""
  end.

(** A data-availability property of the object handed to the hash
    function: the enum name when the signer details are only spread, the
    integer code when the property is overridden with [stark.intDAM]. *)
Inductive DAModeArg : Type :=
| DAName (mode : EDataAvailabilityMode)
| DACode (code : Z).

(** [Signature = ArraySignatureType | WeierstrassSignatureType]. *)
Inductive Signature : Type :=
| SigArray (items : list string)
| SigWeierstrass (rs : WeierstrassSignature).

(** ** The imported collaborators *)

(** The functions of starknet.js that the source calls.  They are the
    cryptography, hashing and encoding primitives the specification
    leaves to a library.  Each is taken at its TypeScript signature, as a
    function of its arguments; those that throw on arguments the source
    can hand them return a [Result]: the transaction hashes (on details
    that lack a field), [getExecuteCalldata] (on a call without
    calldata), [getProof], [CallData.compile], [formatSignature].
    [new MerkleTree] is the tree of a list of leaves; for the empty list
    the constructor does not return, so what is stated about a session
    that reaches the backend is stated for a session with at least one
    allowed method.  The last two fields come with the library and the
    runtime: the address that an [Account] stores, and
    [Number.prototype.toString] beyond the safe integers. *)
Class StarknetJs : Type := {
  (* hash *)
  computePoseidonHashOnElements : list BigNumberish -> string;
  computePoseidonHash : BigNumberish -> BigNumberish -> string;
  v2calculateInvokeTransactionHash :
    string -> string -> list string -> option BigNumberish -> string ->
    BigNumberish -> Result string;
  v3calculateInvokeTransactionHash :
    string -> string -> list string -> string -> BigNumberish ->
    option (list BigNumberish) -> option DAModeArg -> option DAModeArg ->
    option ResourceBounds ->
    option BigNumberish -> option (list BigNumberish) -> Result string;
  (* selector, transaction, typedData *)
  getSelectorFromName : string -> string;
  getExecuteCalldata : list Call -> option string -> Result (list string);
  getMessageHash : TypedData -> string -> string;
  (* ec.starkCurve *)
  starkCurve_sign : string -> list Byte.byte -> WeierstrassSignature;
  (* byteArray *)
  byteArrayFromString : string -> ByteArray;
  (* merkle.MerkleTree *)
  MerkleTree_new :
    list string -> (BigNumberish -> BigNumberish -> string) -> MerkleTree;
  getProof : MerkleTree -> option string -> list string -> Result (list string);
  (* CallData, stark *)
  CallData_compile : RawArg -> Result (list string);
  formatSignature : Signature -> Result (list string);
  toHex : BigNumberish -> string;
  (* the numeric value [BigInt(s)] of a string *)
  BigInt_of_string : string -> Z;
  (* [new Account(provider, address, signer).address] *)
  Account_address : string -> string;
  (* [n.toString()] for a number beyond the safe integers *)
  Number_toString_beyond_safe : Z -> string
}.

(** The helpers imported from [./utils], [./sessionTypes],
    [./signerTypeToCustomEnum] and [./ensureArray]. *)
Class SessionUtils : Type := {
  ensureArray : CallOrCalls -> list Call;
  ALLOWED_METHOD_HASH : string;
  getSessionTypedData : OffChainSession -> string -> TypedData;
  SignerType : Type;
  SignerType_Starknet : SignerType;
  signerTypeToCustomEnum : SignerType -> RawArg -> RawArg
}.

(** What the backend is asked to co-sign. *)
Record BackendRequest : Type := {
  rq_calls : list Call;
  rq_invocationSignerDetails : InvocationsSignerDetails;
  rq_sessionTypedData : TypedData;
  rq_sessionSignature : list Z;
  rq_cacheAuthorisation : bool
}.

(** [ArgentBackendService.signTxAndSession]; it may reject. *)
Definition ArgentBackendService : Type :=
  BackendRequest -> Result BackendSignatureResponse.

Record DappService : Type := {
  argentBackend : ArgentBackendService;
  chainId : string;
  dappKey : DappKey
}.

(** The calls to collaborators that a signing request makes. *)
Inductive SignEvent : Type :=
| Signed (msgHash : string) (key : list Byte.byte)
| BackendAsked (request : BackendRequest).

(** The object handed to [hash.calculateInvokeTransactionHash]: the
    signer details spread, then the overriding properties. *)
Record CalcInvokeTxHashArgs : Type := {
  a_details : InvocationsSignerDetails;
  a_senderAddress : string;
  a_compiledCalldata : list string;
  a_version : string;
  a_nonceDataAvailabilityMode : option DAModeArg;
  a_feeDataAvailabilityMode : option DAModeArg
}.

Local Open Scope async_scope.

Section Model.
Context {lib : StarknetJs} {utils : SessionUtils}.

(** [hash.calculateInvokeTransactionHash]: the library's dispatcher,
    which applies the V3 formula when [args.version] is [V3] or [F3] and
    the legacy formula otherwise. *)
Definition isV3InvokeTx (args : CalcInvokeTxHashArgs) : bool :=
  includes ETransactionVersion3 (a_version args).

Definition calculateInvokeTransactionHash (args : CalcInvokeTxHashArgs)
  : Result string :=
  let d := a_details args in
  if isV3InvokeTx args then
    v3calculateInvokeTransactionHash
      (a_senderAddress args) (a_version args) (a_compiledCalldata args)
      (chainId_of d) (nonce d) (accountDeploymentData d)
      (a_nonceDataAvailabilityMode args) (a_feeDataAvailabilityMode args)
      (resourceBounds d) (tip d) (paymasterData d)
  else
    v2calculateInvokeTransactionHash
      (a_senderAddress args) (a_version args) (a_compiledCalldata args)
      (maxFee d) (chainId_of d) (nonce d).

(** ** [DappService] *)

(** The local constant [sessionWithTxHash] of [signTxAndSession]. *)
Definition sessionWithTxHash (transactionHash accountAddress : string)
    (sessionTypedData : TypedData) (cacheAuthorisation : bool) : string :=
  let sessionMessageHash := getMessageHash sessionTypedData accountAddress in
  computePoseidonHashOnElements
    [BNstring transactionHash; BNstring sessionMessageHash;
     BNnumber (unary_plus cacheAuthorisation)].

(** [ec.starkCurve.sign], recorded in the trace. *)
Definition sign (msgHash : string) (key : list Byte.byte)
  : Async SignEvent WeierstrassSignature :=
  emit (Signed msgHash key) ;;; ret (starkCurve_sign msgHash key).

Definition signTxAndSession (this : DappService)
    (transactionHash accountAddress : string) (sessionTypedData : TypedData)
    (cacheAuthorisation : bool) : Async SignEvent (list Z) :=
  signature <- sign
      (sessionWithTxHash transactionHash accountAddress sessionTypedData
         cacheAuthorisation)
      (privateKey (dappKey this)) ;;
  ret [sig_r signature; sig_s signature].

Definition allowedMethodLeaf (method : AllowedMethod) : string :=
  computePoseidonHashOnElements
    [BNstring ALLOWED_METHOD_HASH; BNstring (Contract_Address method);
     BNstring (getSelectorFromName (selector method))].

Definition buildMerkleTree (sessionRequest : OffChainSession) : MerkleTree :=
  let leaves := map allowedMethodLeaf (allowed_methods sessionRequest) in
  MerkleTree_new leaves computePoseidonHash.

(** The [findIndex] of [getSessionProofs]: both comparisons are between
    strings. *)
Definition allowedIndex (sessionRequest : OffChainSession) (call : Call) : Z :=
  findIndex
    (fun allowedMethod =>
       (String.eqb (Contract_Address allowedMethod) (contractAddress call)
        && String.eqb (selector allowedMethod) (entrypoint call))%bool)
    (allowed_methods sessionRequest).

Definition getSessionProofs (sessionRequest : OffChainSession) (calls : list Call)
  : Result (list (list string)) :=
  let tree := buildMerkleTree sessionRequest in
  map_result
    (fun call =>
       getProof tree (js_index (leaves tree) (allowedIndex sessionRequest call))
         (leaves tree))
    calls.

Definition metadataElements (bArray : ByteArray) : list BigNumberish :=
  ([BNnumber (Z.of_nat (List.length (data bArray)))]
     ++ data bArray
     ++ [pending_word bArray; BNnumber (pending_word_len bArray)])%list.

Definition compileSessionHelper (sessionRequest : OffChainSession) : OnChainSession :=
  let bArray := byteArrayFromString (metadata sessionRequest) in
  let elements := metadataElements bArray in
  let metadataHash := computePoseidonHashOnElements elements in
  {| oc_expires_at := expires_at sessionRequest;
     allowed_methods_root := root (buildMerkleTree sessionRequest);
     metadata_hash := metadataHash;
     oc_session_key_guid := session_key_guid sessionRequest |}.

Definition getStarknetSignatureType (pubkey : BigNumberish) (signature : list Z)
  : RawArg :=
  let component i :=
    match js_index signature i with
    | Some v => RFelt (BNbigint v)
    | None => RUndefined
    end in
  signerTypeToCustomEnum SignerType_Starknet
    (RObject [("pubkey", RFelt pubkey); ("r", component 0); ("s", component 1)]).

Definition compileSessionTokenHelper (this : DappService)
    (session : OnChainSession) (sessionRequest : OffChainSession)
    (calls : list Call) (sessionSignature : list Z)
    (session_authorization : list string)
    (guardianSignature : BackendSignatureResponse) (cache_authorization : bool)
  : Result SessionToken :=
  result_bind (getSessionProofs sessionRequest calls) (fun proofs =>
  Ok {| session := session;
        cache_authorization := cache_authorization;
        session_authorization := session_authorization;
        sessionSignature :=
          getStarknetSignatureType (BNstring (publicKey (dappKey this)))
            sessionSignature;
        guardianSignature :=
          getStarknetSignatureType (BNstring (bs_publicKey guardianSignature))
            [bs_r guardianSignature; bs_s guardianSignature];
        proofs := proofs |}).

(** The session token as the argument of [CallData.compile]: the object
    literal of [compileSessionTokenHelper], keys in insertion order. *)
Definition rawHexArray (l : list string) : RawArg :=
  RArray (map (fun s => RFelt (BNstring s)) l).

Definition rawOnChainSession (s : OnChainSession) : RawArg :=
  RObject [("expires_at", RFelt (oc_expires_at s));
           ("allowed_methods_root", RFelt (BNstring (allowed_methods_root s)));
           ("metadata_hash", RFelt (BNstring (metadata_hash s)));
           ("session_key_guid", RFelt (oc_session_key_guid s))].

Definition rawSessionToken (t : SessionToken) : RawArg :=
  RObject [("session", rawOnChainSession (session t));
           ("cache_authorization", RBool (cache_authorization t));
           ("session_authorization", rawHexArray (session_authorization t));
           ("sessionSignature", sessionSignature t);
           ("guardianSignature", guardianSignature t);
           ("proofs", RArray (map rawHexArray (proofs t)))].

(** [this.argentBackend.signTxAndSession], recorded in the trace. *)
Definition askBackend (this : DappService) (request : BackendRequest)
  : Async SignEvent BackendSignatureResponse :=
  emit (BackendAsked request) ;;; lift (argentBackend this request).

Definition compileSessionSignature (this : DappService)
    (sessionAuthorizationSignature : list string)
    (sessionRequest : OffChainSession) (transactionHash : string)
    (calls : list Call) (accountAddress : string)
    (invocationSignerDetails : InvocationsSignerDetails)
    (cacheAuthorisation : bool) : Async SignEvent (list string) :=
  let session := compileSessionHelper sessionRequest in
  let sessionTypedData := getSessionTypedData sessionRequest (chainId this) in
  sessionSignature <- signTxAndSession this transactionHash accountAddress
                        sessionTypedData cacheAuthorisation ;;
  guardianSignature <- askBackend this
      {| rq_calls := calls;
         rq_invocationSignerDetails := invocationSignerDetails;
         rq_sessionTypedData := sessionTypedData;
         rq_sessionSignature := sessionSignature;
         rq_cacheAuthorisation := cacheAuthorisation |} ;;
  sessionToken <- lift (compileSessionTokenHelper this session sessionRequest
                          calls sessionSignature sessionAuthorizationSignature
                          guardianSignature cacheAuthorisation) ;;
  compiled <- lift (CallData_compile (rawSessionToken sessionToken)) ;;
  ret (SESSION_MAGIC :: compiled).

(** The arguments of the two calls of [hash.calculateInvokeTransactionHash]
    in [signTransaction]. *)
Definition spreadDA (m : option EDataAvailabilityMode) : option DAModeArg :=
  option_map DAName m.

Definition v2HashArgs (d : InvocationsSignerDetails) (compiledCalldata : list string)
  : CalcInvokeTxHashArgs :=
  {| a_details := d;
     a_senderAddress := walletAddress d;
     a_compiledCalldata := compiledCalldata;
     a_version := version d;
     a_nonceDataAvailabilityMode := spreadDA (nonceDataAvailabilityMode d);
     a_feeDataAvailabilityMode := spreadDA (feeDataAvailabilityMode d) |}.

Definition v3HashArgs (d : InvocationsSignerDetails) (compiledCalldata : list string)
    (nonceDAM feeDAM : Z) : CalcInvokeTxHashArgs :=
  {| a_details := d;
     a_senderAddress := walletAddress d;
     a_compiledCalldata := compiledCalldata;
     a_version := version d;
     a_nonceDataAvailabilityMode := Some (DACode nonceDAM);
     a_feeDataAvailabilityMode := Some (DACode feeDAM) |}.

Definition signTransaction (this : DappService)
    (sessionAuthorizationSignature : list string)
    (sessionRequest : OffChainSession) (calls : list Call)
    (invocationSignerDetails : InvocationsSignerDetails)
    (cacheAuthorisation : bool) : Async SignEvent (list string) :=
  compiledCalldata <-
    lift (getExecuteCalldata calls (cairoVersion invocationSignerDetails)) ;;
  txHash <-
    (if includes ETransactionVersion2 (version invocationSignerDetails) then
       lift (calculateInvokeTransactionHash
               (v2HashArgs invocationSignerDetails compiledCalldata))
     else if includes ETransactionVersion3 (version invocationSignerDetails) then
       nonceDAM <- lift (intDAM (nonceDataAvailabilityMode invocationSignerDetails)) ;;
       feeDAM <- lift (intDAM (feeDataAvailabilityMode invocationSignerDetails)) ;;
       lift (calculateInvokeTransactionHash
               (v3HashArgs invocationSignerDetails compiledCalldata nonceDAM feeDAM))
     else throw "unsupported signTransaction version") ;;
  compileSessionSignature this sessionAuthorizationSignature sessionRequest
    txHash calls (walletAddress invocationSignerDetails)
    invocationSignerDetails cacheAuthorisation.

(** ** [SessionSigner] *)

Record SessionSigner : Type := {
  signTransactionCallback :
    list Call -> InvocationsSignerDetails -> Async SignEvent (list string)
}.

Definition SessionSigner_signRaw (this : SessionSigner) (_ : string)
  : Async SignEvent (list string) :=
  throw "Method not implemented.".

Definition SessionSigner_signTransaction (this : SessionSigner)
    (calls : list Call) (invocationSignerDetails : InvocationsSignerDetails)
  : Async SignEvent (list string) :=
  signTransactionCallback this calls invocationSignerDetails.

(** The [Account] that [getAccountWithSessionSigner] returns: the address
    it stores and its signer (the provider is handed through to the
    library class untouched and is left out). *)
Record SessionAccount : Type := {
  sa_address : string;
  sa_signer : SessionSigner
}.

(** [getAccountWithSessionSigner]; [cacheAuthorisation] defaults to
    [false] when it is not given. *)
Definition getAccountWithSessionSigner (this : DappService) (address : string)
    (sessionRequest : OffChainSession)
    (sessionAuthorizationSignature : list string)
    (cacheAuthorisation : option bool) : SessionAccount :=
  let cacheAuthorisation :=
    match cacheAuthorisation with
    | Some b => b
    | None => false
    end in
  let sessionSigner :=
    {| signTransactionCallback := fun calls invocationSignerDetails =>
         signTransaction this sessionAuthorizationSignature sessionRequest calls
           invocationSignerDetails cacheAuthorisation |} in
  {| sa_address := Account_address address; sa_signer := sessionSigner |}.

End Model.

(** ** The offchain session accounts *)

Definition OFFCHAIN_SESSION_ENTRYPOINT : string := "use_offchain_session".

(** [./interface]: a call that may carry the details of the session
    transaction. *)
Record OffchainSessionDetails : Type := {
  osd_nonce : BigNumberish;
  osd_maxFee : BigNumberish;
  osd_version : string
}.

Record OffchainSessionCall : Type := {
  osc_call : Call;
  offchainSessionDetails : option OffchainSessionDetails
}.

(** A plain [Call] placed in an [OffchainSessionCall[]]. *)
Definition plainCall (c : Call) : OffchainSessionCall :=
  {| osc_call := c; offchainSessionDetails := None |}.

Record InvocationsDetails : Type := {
  d_nonce : option BigNumberish;
  d_maxFee : option BigNumberish;
  d_version : option string
}.

Definition Abi : Type := RawArg.

Record InvokeFunctionResponse : Type := {
  transaction_hash : string
}.

Record FeeEstimate : Type := {
  overall_fee : BigNumberish
}.

Record SimulatedTransaction : Type := {
  fee_estimation : FeeEstimate;
  sim_suggestedMaxFee : option Z
}.

Record EstimateFee : Type := {
  suggestedMaxFee : Z
}.

(** One element of [AddInvokeTransactionParameters.calls]. *)
Record WalletCall : Type := {
  contract_address : string;
  wc_entrypoint : string;
  wc_calldata : option CallCalldata;
  wc_offchainSessionDetails : option OffchainSessionDetails
}.

Record AddInvokeTransactionParameters : Type := {
  wp_calls : list WalletCall
}.

(** What an account hands over for submission. *)
Inductive SubmitEvent : Type :=
| WalletRequested (type : string) (params : AddInvokeTransactionParameters)
| AccountExecuted (calls : list OffchainSessionCall) (details : InvocationsDetails).

Record SignerInterface : Type := {
  getPubKey : Result string;
  signer_signTransaction :
    list Call -> InvocationsSignerDetails -> option (list Abi) -> Result Signature
}.

(** The methods inherited from [Account] that [execute] awaits. *)
Record AccountBase : Type := {
  address : string;
  signer : SignerInterface;
  this_cairoVersion : option string;
  getChainId : Result string;
  getNonce : Result BigNumberish;
  simulateTransaction : CallOrCalls -> string -> Result (list SimulatedTransaction);
  getSuggestedFee : CallOrCalls -> string -> Result EstimateFee
}.

Record AccountInterface : Type := {
  account_address : string;
  account_execute :
    list OffchainSessionCall -> InvocationsDetails -> Result InvokeFunctionResponse
}.

Record StarknetWindowObject : Type := {
  request : string -> AddInvokeTransactionParameters -> Result InvokeFunctionResponse
}.

(** The decimal digits of an integer. *)
Definition Z_toString (z : Z) : string := NilZero.string_of_int (Z.to_int z).

(** [Number.MAX_SAFE_INTEGER] *)
Definition MAX_SAFE_INTEGER : Z := 2 ^ 53 - 1.

Section ToString.
Context {lib : StarknetJs}.

(** [n.toString()] for a number holding an integer: its digits within
    the safe integers, the runtime's shortest round-trip rendering
    beyond them. *)
Definition Number_toString (n : Z) : string :=
  if Z.abs n <=? MAX_SAFE_INTEGER then Z_toString n
  else Number_toString_beyond_safe n.

(** [x.toString()] for a [BigNumberish]. *)
Definition BigNumberish_toString (v : BigNumberish) : string :=
  match v with
  | BNstring s => s
  | BNnumber n => Number_toString n
  | BNbigint n => Z_toString n
  end.

End ToString.

(** [!x] for an optional [BigNumberish]. *)
Definition falsy (v : option BigNumberish) : bool :=
  match v with
  | None => true
  | Some (BNstring s) => String.eqb s ""
  | Some (BNnumber n) => n =? 0
  | Some (BNbigint n) => n =? 0
  end.

(** [arr[i]] as a property value of the object given to
    [CallData.compile]. *)
Definition element (l : list string) (i : Z) : RawArg :=
  match js_index l i with
  | Some s => RFelt (BNstring s)
  | None => RUndefined
  end.

(** The object literal compiled into the calldata of the session call. *)
Definition sessionCallArgs (signerPubKey : string)
    (formattedDappSignature signature : list string) : RawArg :=
  RObject [("signer", RFelt (BNstring signerPubKey));
           ("token1", element formattedDappSignature 0);
           ("token2", element formattedDappSignature 1);
           ("token3", element signature 0);
           ("token4", element signature 1);
           ("token5", element signature 2);
           ("token6", element signature 3)].

(** The fee that [execute] settles on: the simulation's suggestion, or
    the provider's when the simulation fails. *)
Definition estimateMaxFee (base : AccountBase) (calls : CallOrCalls) (nonce : string)
  : Async SubmitEvent BigNumberish :=
  try_catch
    (sim <- lift (simulateTransaction base calls nonce) ;;
     match sim with
     | [] => throw "TypeError: Cannot destructure property 'fee_estimation'"
     | estimation :: _ =>
         let overall_fee := overall_fee (fee_estimation estimation) in
         ret (match sim_suggestedMaxFee estimation with
              | Some fee => BNbigint fee
              | None => overall_fee
              end)
     end)
    (fun _ =>
       fee <- lift (getSuggestedFee base calls nonce) ;;
       ret (BNbigint (suggestedMaxFee fee))).

Module OffchainSessionAccount.
Section Model.
Context {lib : StarknetJs} {utils : SessionUtils}.

Record t : Type := {
  base : AccountBase;
  sessionSignature : Signature;
  account : AccountInterface;
  wallet : StarknetWindowObject
}.

Definition sessionToCall (this : t) (dappSignature : Signature)
    (offchainSessionDetails : OffchainSessionDetails)
  : Async SubmitEvent OffchainSessionCall :=
  signature <- lift (formatSignature (sessionSignature this)) ;;
  formattedDappSignature <- lift (formatSignature dappSignature) ;;
  signerPubKey <- lift (getPubKey (signer (base this))) ;;
  compiled <- lift (CallData_compile
                      (sessionCallArgs signerPubKey formattedDappSignature signature)) ;;
  ret {| osc_call := {| contractAddress := address (base this);
                        entrypoint := OFFCHAIN_SESSION_ENTRYPOINT;
                        calldata := Some (Calldata compiled) |};
         offchainSessionDetails := Some offchainSessionDetails |}.

Definition extendCallsBySession (this : t) (calls : list Call)
    (dappSignature : Signature) (offchainSessionDetails : OffchainSessionDetails)
  : Async SubmitEvent (list OffchainSessionCall) :=
  sessionCall <- sessionToCall this dappSignature offchainSessionDetails ;;
  ret (sessionCall :: map plainCall calls).

Definition walletCall (t : OffchainSessionCall) : WalletCall :=
  {| contract_address := contractAddress (osc_call t);
     wc_entrypoint := entrypoint (osc_call t);
     wc_calldata := calldata (osc_call t);
     wc_offchainSessionDetails := offchainSessionDetails t |}.

Definition execute (this : t) (calls : CallOrCalls) (abis : option (list Abi))
    (transactionsDetail : InvocationsDetails)
  : Async SubmitEvent InvokeFunctionResponse :=
  let transactions := ensureArray calls in
  chainId <- lift (getChainId (base this)) ;;
  nonceValue <- match d_nonce transactionsDetail with
                | Some n => ret n
                | None => lift (getNonce (base this))
                end ;;
  let nonce := toHex nonceValue in
  maxFee <- estimateMaxFee (base this) calls nonce ;;
  let signerDetails :=
    {| walletAddress := account_address (account this);
       cairoVersion := Some (match this_cairoVersion (base this) with
                             | Some v => v
                             | None => "1"
                             end);
       chainId_of := chainId;
       nonce := BNstring nonce;
       version := "0x1";
       maxFee := Some maxFee;
       resourceBounds := None;
       tip := None;
       paymasterData := None;
       accountDeploymentData := None;
       nonceDataAvailabilityMode := None;
       feeDataAvailabilityMode := None |} in
  dappSignature <- lift (signer_signTransaction (signer (base this))
                           transactions signerDetails abis) ;;
  transactionsWithSession <- extendCallsBySession this transactions dappSignature
      {| osd_nonce := BNstring nonce;
         osd_maxFee := BNstring (BigNumberish_toString maxFee);
         osd_version := "0x1" |} ;;
  let invokeParams := {| wp_calls := map walletCall transactionsWithSession |} in
  emit (WalletRequested "starknet_addInvokeTransaction" invokeParams) ;;;
  lift (request (wallet this) "starknet_addInvokeTransaction" invokeParams).

End Model.
End OffchainSessionAccount.

Module OffchainSessionAccountV5.
Section Model.
Context {lib : StarknetJs} {utils : SessionUtils}.

Record t : Type := {
  base : AccountBase;
  sessionSignature : Signature;
  account : AccountInterface
}.

Definition sessionToCall (this : t) (dappSignature : Signature)
  : Async SubmitEvent OffchainSessionCall :=
  signature <- lift (formatSignature (sessionSignature this)) ;;
  formattedDappSignature <- lift (formatSignature dappSignature) ;;
  signerPubKey <- lift (getPubKey (signer (base this))) ;;
  compiled <- lift (CallData_compile
                      (sessionCallArgs signerPubKey formattedDappSignature signature)) ;;
  ret {| osc_call := {| contractAddress := address (base this);
                        entrypoint := OFFCHAIN_SESSION_ENTRYPOINT;
                        calldata := Some (Calldata compiled) |};
         offchainSessionDetails := None |}.

Definition extendCallsBySession (this : t) (calls : list Call)
    (dappSignature : Signature)
  : Async SubmitEvent (list OffchainSessionCall) :=
  sessionCall <- sessionToCall this dappSignature ;;
  ret (sessionCall :: map plainCall calls).

(** [abiOrDetails?: Abi[] | UniversalDetails] *)
Inductive AbiOrDetails : Type :=
| Abis (abis : list Abi)
| Details (details : InvocationsDetails).

Definition execute (this : t) (calls : CallOrCalls)
    (abiOrDetails : option AbiOrDetails) (transactionsDetail : InvocationsDetails)
  : Async SubmitEvent InvokeFunctionResponse :=
  let transactions := ensureArray calls in
  let version := "0x1" in
  chainId <- lift (getChainId (base this)) ;;
  let details := match abiOrDetails with
                 | None => transactionsDetail
                 | Some (Abis _) => transactionsDetail
                 | Some (Details d) => d
                 end in
  nonceValue <- match d_nonce details with
                | Some n => ret n
                | None => lift (getNonce (base this))
                end ;;
  let nonce := toHex nonceValue in
  maxFee <- (if falsy (d_maxFee details)
             then fee <- estimateMaxFee (base this) calls nonce ;; ret (Some fee)
             else ret (d_maxFee details)) ;;
  let signerDetails :=
    {| walletAddress := account_address (account this);
       cairoVersion := Some (match this_cairoVersion (base this) with
                             | Some v => v
                             | None => "1"
                             end);
       chainId_of := chainId;
       nonce := BNstring nonce;
       version := version;
       maxFee := maxFee;
       resourceBounds := None;
       tip := None;
       paymasterData := None;
       accountDeploymentData := None;
       nonceDataAvailabilityMode := None;
       feeDataAvailabilityMode := None |} in
  dappSignature <- lift (signer_signTransaction (signer (base this))
                           transactions signerDetails None) ;;
  transactionsWithSession <- extendCallsBySession this transactions dappSignature ;;
  maxFeeString <- match maxFee with
                  | Some fee => ret (BigNumberish_toString fee)
                  | None => throw "TypeError: Cannot read properties of undefined (reading 'toString')"
                  end ;;
  let executeDetails :=
    {| d_nonce := Some (BNstring nonce);
       d_maxFee := Some (BNstring maxFeeString);
       d_version := Some version |} in
  emit (AccountExecuted transactionsWithSession executeDetails) ;;;
  lift (account_execute (account this) transactionsWithSession executeDetails).

End Model.
End OffchainSessionAccountV5.

(** ** Field elements *)

Section FieldElements.
Context {lib : StarknetJs}.

(** The field element a [BigNumberish] denotes, [BigInt(v)]. *)
Definition bigIntOf (v : BigNumberish) : Z :=
  match v with
  | BNstring s => BigInt_of_string s
  | BNnumber n => n
  | BNbigint n => n
  end.

End FieldElements.

(** ** Test doubles

    Stand-ins for the collaborators, in the manner of the mocks of
    [__tests__/sessionDappService.test.ts]; they are used to run the
    model on concrete inputs. *)

Definition hex_value (c : ascii) : option Z :=
  let n := Z.of_nat (nat_of_ascii c) in
  if (48 <=? n) && (n <=? 57) then Some (n - 48)
  else if (97 <=? n) && (n <=? 102) then Some (n - 87)
  else if (65 <=? n) && (n <=? 70) then Some (n - 55)
  else None.

Fixpoint parse_hex_digits (s : string) (acc : Z) : Z :=
  match s with
  | EmptyString => acc
  | String c rest =>
      match hex_value c with
      | Some d => parse_hex_digits rest (16 * acc + d)
      | None => acc
      end
  end.

Definition mock_BigInt (s : string) : Z :=
  match s with
  | String "0" (String "x" digits) => parse_hex_digits digits 0
  | _ => 0
  end.

Definition mock_bigIntOf (v : BigNumberish) : Z :=
  match v with
  | BNstring s => mock_BigInt s
  | BNnumber n => n
  | BNbigint n => n
  end.

(** An injective rendering of a sequence of integers: each one as its
    sign followed by its magnitude in unary. *)
Fixpoint unary (n : nat) (rest : string) : string :=
  match n with
  | O => String "." rest
  | S k => String "1" (unary k rest)
  end.

Definition render_Z (z : Z) (rest : string) : string :=
  String (if z <? 0 then "-"%char else "+"%char) (unary (Z.abs_nat z) rest).

Fixpoint render (l : list Z) : string :=
  match l with
  | [] => EmptyString
  | z :: rest => render_Z z (render rest)
  end.

Definition mock_hash (xs : list BigNumberish) : string :=
  render (map mock_bigIntOf xs).

Fixpoint hex_of (fuel : nat) (n : Z) (acc : string) : string :=
  match fuel with
  | O => acc
  | S f =>
      if n <? 16 then String (hex_digit (Z.to_nat n)) acc
      else hex_of f (n / 16) (String (hex_digit (Z.to_nat (n mod 16))) acc)
  end.

Definition mock_toHex (v : BigNumberish) : string :=
  let n := mock_bigIntOf v in
  "0x" ++ hex_of (S (Z.to_nat (Z.log2 n))) n EmptyString.

Definition mock_formatSignature (sig : Signature) : Result (list string) :=
  match sig with
  | SigArray items => Ok (map (fun it => mock_toHex (BNstring it)) items)
  | SigWeierstrass rs =>
      Ok [mock_toHex (BNbigint (sig_r rs)); mock_toHex (BNbigint (sig_s rs))]
  end.

(** A flat encoder: every leaf becomes one element, an array is preceded
    by its length, an enum by the index of its active variant;
    [undefined] cannot be encoded. *)
Definition mock_felt (v : BigNumberish) : string :=
  Z_toString (mock_bigIntOf v).

Fixpoint mock_compile (v : RawArg) : Result (list string) :=
  let fix compile_all (l : list RawArg) : Result (list string) :=
    match l with
    | [] => Ok []
    | x :: rest =>
        result_bind (mock_compile x) (fun a =>
        result_bind (compile_all rest) (fun b => Ok (a ++ b)%list))
    end in
  let fix compile_fields (l : list (string * RawArg)) : Result (list string) :=
    match l with
    | [] => Ok []
    | (_, x) :: rest =>
        result_bind (mock_compile x) (fun a =>
        result_bind (compile_fields rest) (fun b => Ok (a ++ b)%list))
    end in
  let fix compile_variant (l : list (string * RawArg)) (i : Z) : Result (list string) :=
    match l with
    | [] => Throw "no active variant"
    | (_, RUndefined) :: rest => compile_variant rest (i + 1)
    | (_, x) :: _ =>
        result_bind (mock_compile x) (fun a => Ok (Z_toString i :: a))
    end in
  match v with
  | RUndefined => Throw "undefined can't be computed by felt()"
  | RBool b => Ok [Z_toString (unary_plus b)]
  | RFelt x => Ok [mock_felt x]
  | RArray items =>
      result_bind (compile_all items) (fun a =>
      Ok (Z_toString (Z.of_nat (List.length items)) :: a))
  | RObject fields => compile_fields fields
  | RCustomEnum variant => compile_variant variant 0
  end.

Definition mock_byteArrayFromString (s : string) : ByteArray :=
  match encodeShortString s with
  | Ok word =>
      if Nat.eqb (String.length s) 31
      then {| data := [BNstring word]; pending_word := BNstring "0x00";
              pending_word_len := 0 |}
      else {| data := []; pending_word := BNstring word;
              pending_word_len := Z.of_nat (String.length s) |}
  | Throw _ => {| data := []; pending_word := BNstring "0x00"; pending_word_len := 0 |}
  end.

Definition mock_MerkleTree_new (leafHashes : list string)
    (hashMethod : BigNumberish -> BigNumberish -> string) : MerkleTree :=
  {| leaves := leafHashes;
     branches := [];
     root := fold_left (fun acc leaf => hashMethod (BNstring acc) (BNstring leaf))
               (tl leafHashes) (hd "0x0" leafHashes) |}.

Definition mock_getProof (tree : MerkleTree) (leaf : option string)
    (branch : list string) : Result (list string) :=
  match leaf with
  | Some l =>
      if existsb (String.eqb l) branch
      then Ok (filter (fun other => negb (String.eqb l other)) branch)
      else Throw "leaf not found"
  | None => Throw "leaf not found"
  end.

(** [getExecuteCalldata] of the doubles: as starknet.js, it cannot
    compile a call without calldata for a Cairo 1 account. *)
Definition mock_getExecuteCalldata (calls : list Call) (cairoVersion : option string)
  : Result (list string) :=
  if (match cairoVersion with
      | Some v => String.eqb v "1"
      | None => false
      end
      && existsb (fun call => match calldata call with
                              | None => true
                              | Some _ => false
                              end) calls)%bool
  then Throw "TypeError: Cannot convert undefined or null to object"
  else Ok (map contractAddress calls).

(** The V3 hash of the doubles needs the V3 fields of the details. *)
Definition mock_v3Hash (resourceBounds : option ResourceBounds)
    (paymasterData accountDeploymentData : option (list BigNumberish))
  : Result string :=
  match resourceBounds, paymasterData, accountDeploymentData with
  | Some _, Some _, Some _ => Ok "0x33"
  | _, _, _ => Throw "TypeError: Cannot read properties of undefined"
  end.

Definition lowercase_ascii (c : ascii) : ascii :=
  let n := nat_of_ascii c in
  if (Nat.leb 65 n && Nat.leb n 90)%bool then ascii_of_nat (n + 32) else c.

Fixpoint mock_toLowerCase (s : string) : string :=
  match s with
  | EmptyString => EmptyString
  | String c rest => String (lowercase_ascii c) (mock_toLowerCase rest)
  end.

(** Seventeen significant digits, the rest zeros. *)
Definition mock_Number_toString (n : Z) : string :=
  let digits := Z.of_nat (String.length (Z_toString (Z.abs n))) in
  let scale := 10 ^ (digits - 17) in
  Z_toString (((n + scale / 2) / scale) * scale).

Definition mockLib : StarknetJs :=
  {| computePoseidonHashOnElements := mock_hash;
     computePoseidonHash := fun a b => mock_hash [a; b];
     v2calculateInvokeTransactionHash := fun _ _ _ _ _ _ => Ok "0x22";
     v3calculateInvokeTransactionHash :=
       fun _ _ _ _ _ accountDeploymentData _ _ resourceBounds _ paymasterData =>
         mock_v3Hash resourceBounds paymasterData accountDeploymentData;
     getSelectorFromName := fun _ => "0x5e";
     getExecuteCalldata := mock_getExecuteCalldata;
     getMessageHash := fun _ _ => "0x7";
     starkCurve_sign := fun msgHash _ =>
       {| sig_r := Z.of_nat (String.length msgHash); sig_s := 1 |};
     byteArrayFromString := mock_byteArrayFromString;
     MerkleTree_new := mock_MerkleTree_new;
     getProof := mock_getProof;
     CallData_compile := mock_compile;
     formatSignature := mock_formatSignature;
     toHex := mock_toHex;
     BigInt_of_string := mock_BigInt;
     Account_address := mock_toLowerCase;
     Number_toString_beyond_safe := mock_Number_toString |}.

Definition mock_signerTypeToCustomEnum (signerType : string) (value : RawArg) : RawArg :=
  RCustomEnum
    (map (fun name => (name, if String.eqb name signerType then value else RUndefined))
       ["Starknet"; "Secp256k1"; "Secp256r1"; "Eip191"; "Webauthn"]).

Definition mockUtils : SessionUtils :=
  {| ensureArray := fun calls =>
       match calls with
       | OneCall c => [c]
       | ManyCalls l => l
       end;
     ALLOWED_METHOD_HASH := "0x1";
     getSessionTypedData := fun sessionRequest chain =>
       RObject [("domain", RFelt (BNstring chain));
                ("message", RObject [("Expires At", RFelt (expires_at sessionRequest));
                                     ("Session Key", RFelt (session_key_guid sessionRequest))])];
     SignerType := string;
     SignerType_Starknet := "Starknet";
     signerTypeToCustomEnum := mock_signerTypeToCustomEnum |}.

(** The fixtures of the test suite, with small field elements. *)
Definition test_sessionRequest : OffChainSession :=
  {| expires_at := BNnumber 1234567890;
     allowed_methods := [{| Contract_Address := "0xabc"; selector := "transfer" |}];
     metadata := "{}";
     session_key_guid := BNstring "0x11" |}.

Definition test_sessionAuthorizationSignature : list string := ["0x51"; "0x52"].

Definition test_backendResponse : BackendSignatureResponse :=
  {| bs_publicKey := "0x123"; bs_r := 10; bs_s := 10 |}.

Definition test_dappService : DappService :=
  {| argentBackend := fun _ => Ok test_backendResponse;
     chainId := "0x534e5f5345504f4c4941";
     dappKey := {| privateKey := [Byte.x01]; publicKey := "0x9" |} |}.

Definition test_call : Call :=
  {| contractAddress := "0xabc"; entrypoint := "transfer";
     calldata := Some (Calldata []) |}.

Definition test_otherCall : Call :=
  {| contractAddress := "0xdef"; entrypoint := "other";
     calldata := Some (Calldata []) |}.

Definition test_callWithoutCalldata : Call :=
  {| contractAddress := "0xabc"; entrypoint := "transfer"; calldata := None |}.

(** V3 details with all their fields. *)
Definition test_detailsV3 : InvocationsSignerDetails :=
  {| walletAddress := "0xacc";
     cairoVersion := Some "1";
     chainId_of := "0x534e5f5345504f4c4941";
     nonce := BNnumber 1;
     version := "0x3";
     maxFee := None;
     resourceBounds :=
       Some {| l1_gas := {| max_amount := "0x10"; max_price_per_unit := "0x20" |};
               l2_gas := {| max_amount := "0x0"; max_price_per_unit := "0x0" |} |};
     tip := Some (BNnumber 0);
     paymasterData := Some [];
     accountDeploymentData := Some [];
     nonceDataAvailabilityMode := Some L1;
     feeDataAvailabilityMode := Some L2 |}.

Definition test_details (v : string) : InvocationsSignerDetails :=
  {| walletAddress := "0xacc";
     cairoVersion := Some "1";
     chainId_of := "0x534e5f5345504f4c4941";
     nonce := BNnumber 1;
     version := v;
     maxFee := Some (BNbigint 1000);
     resourceBounds := None;
     tip := None;
     paymasterData := None;
     accountDeploymentData := None;
     nonceDataAvailabilityMode := Some L1;
     feeDataAvailabilityMode := Some L2 |}.

Definition test_accountBase : AccountBase :=
  {| address := "0x5e55";
     signer := {| getPubKey := Ok "0x9";
                  signer_signTransaction := fun _ _ _ =>
                    Ok (SigWeierstrass {| sig_r := 1; sig_s := 2 |}) |};
     this_cairoVersion := Some "1";
     getChainId := Ok "0x534e5f5345504f4c4941";
     getNonce := Ok (BNnumber 7);
     simulateTransaction := fun _ _ =>
       Ok [{| fee_estimation := {| overall_fee := BNstring "0x10" |};
              sim_suggestedMaxFee := Some 24 |}];
     getSuggestedFee := fun _ _ => Ok {| suggestedMaxFee := 24 |} |}.

Definition test_accountInterface : AccountInterface :=
  {| account_address := "0xacc";
     account_execute := fun _ _ => Ok {| transaction_hash := "0x7a" |} |}.

Definition test_sessionSignature : Signature := SigArray ["0x3"; "0x4"; "0x5"; "0x6"].

Definition test_account : OffchainSessionAccount.t :=
  {| OffchainSessionAccount.base := test_accountBase;
     OffchainSessionAccount.sessionSignature := test_sessionSignature;
     OffchainSessionAccount.account := test_accountInterface;
     OffchainSessionAccount.wallet :=
       {| request := fun _ _ => Ok {| transaction_hash := "0x7a" |} |} |}.

Definition test_accountV5 : OffchainSessionAccountV5.t :=
  {| OffchainSessionAccountV5.base := test_accountBase;
     OffchainSessionAccountV5.sessionSignature := test_sessionSignature;
     OffchainSessionAccountV5.account := test_accountInterface |}.

Definition test_dappSignature : Signature :=
  SigWeierstrass {| sig_r := 1; sig_s := 2 |}.

Definition test_offchainSessionDetails : OffchainSessionDetails :=
  {| osd_nonce := BNstring "0x7"; osd_maxFee := BNstring "24"; osd_version := "0x1" |}.

Definition test_noDetails : InvocationsDetails :=
  {| d_nonce := None; d_maxFee := None; d_version := None |}.

(** The outcome of the signing request of the test suite on the doubles:
    one allowed call, a V2 transaction. *)
Definition test_signature : list string :=
  Eval vm_compute in
    match fst (signTransaction (lib := mockLib) (utils := mockUtils)
                 test_dappService test_sessionAuthorizationSignature
                 test_sessionRequest [test_call] (test_details "0x2") false [])
    with
    | Ok sig => sig
    | Throw _ => []
    end.

Definition test_trace : list SignEvent :=
  Eval vm_compute in
    snd (signTransaction (lib := mockLib) (utils := mockUtils)
           test_dappService test_sessionAuthorizationSignature
           test_sessionRequest [test_call] (test_details "0x2") false []).

(** The outcome of [execute] on the doubles, for a batch of two calls. *)
Definition test_batch : CallOrCalls := ManyCalls [test_call; test_otherCall].

Definition test_walletTrace : list SubmitEvent :=
  Eval vm_compute in
    snd (OffchainSessionAccount.execute (lib := mockLib) (utils := mockUtils)
           test_account test_batch None test_noDetails []).

Definition test_executeTrace : list SubmitEvent :=
  Eval vm_compute in
    snd (OffchainSessionAccountV5.execute (lib := mockLib) (utils := mockUtils)
           test_accountV5 test_batch None test_noDetails []).

Definition test_response : InvokeFunctionResponse := {| transaction_hash := "0x7a" |}.

(** The calldata object of the session call as the specification words
    it: the two elements of the dapp signature, then the four of the
    session signature. *)
Definition claimed_sessionCallArgs (formattedDappSignature signature : list string)
  : RawArg :=
  RObject [("token1", element formattedDappSignature 0);
           ("token2", element formattedDappSignature 1);
           ("token3", element signature 0);
           ("token4", element signature 1);
           ("token5", element signature 2);
           ("token6", element signature 3)].

(** The session call as the specification words it: a call to the
    account's own address and to the session entrypoint, with a calldata
    that encodes [claimed_sessionCallArgs]. *)
Definition claimed_isSessionCall {lib : StarknetJs} (base : AccountBase)
    (sessionSignature dappSignature : Signature) (c : Call) : Prop :=
  contractAddress c = address base /\
  entrypoint c = "use_offchain_session" /\
  exists formattedDappSignature signature compiled,
    formatSignature dappSignature = Ok formattedDappSignature /\
    formatSignature sessionSignature = Ok signature /\
    CallData_compile
      (claimed_sessionCallArgs formattedDappSignature signature) = Ok compiled /\
    calldata c = Some (Calldata compiled).


(** Whether an object given to [CallData.compile] has a property whose
    value is [undefined]. *)
Definition hasUndefinedProperty (o : RawArg) : bool :=
  match o with
  | RObject fields =>
      existsb (fun field => match snd field with
                            | RUndefined => true
                            | _ => false
                            end) fields
  | _ => false
  end.

Definition test_feeDetails (fee : option BigNumberish) : InvocationsDetails :=
  {| d_nonce := None; d_maxFee := fee; d_version := Some "0x3" |}.

Section Pipeline.
Context {lib : StarknetJs} {utils : SessionUtils}.

(** The value returned by [signTxAndSession] inside
    [compileSessionSignature]: the two components of the dapp key's
    signature of the combined hash. *)
Definition sessionSignatureOf (this : DappService) (sessionRequest : OffChainSession)
    (transactionHash accountAddress : string) (cache : bool) : list Z :=
  let sessionTypedData := getSessionTypedData sessionRequest (chainId this) in
  let signature :=
    starkCurve_sign
      (computePoseidonHashOnElements
         [BNstring transactionHash;
          BNstring (getMessageHash sessionTypedData accountAddress);
          BNnumber (if cache then 1 else 0)])
      (privateKey (dappKey this)) in
  [sig_r signature; sig_s signature].

(** The argument of [this.argentBackend.signTxAndSession] in
    [compileSessionSignature]. *)
Definition backendRequestOf (this : DappService) (sessionRequest : OffChainSession)
    (transactionHash : string) (calls : list Call) (accountAddress : string)
    (d : InvocationsSignerDetails) (cache : bool) : BackendRequest :=
  {| rq_calls := calls;
     rq_invocationSignerDetails := d;
     rq_sessionTypedData := getSessionTypedData sessionRequest (chainId this);
     rq_sessionSignature :=
       sessionSignatureOf this sessionRequest transactionHash accountAddress cache;
     rq_cacheAuthorisation := cache |}.

(** The two collaborator calls of a signing request that gets as far as
    the backend. *)
Definition signingEvents (this : DappService) (sessionRequest : OffChainSession)
    (transactionHash : string) (calls : list Call) (accountAddress : string)
    (d : InvocationsSignerDetails) (cache : bool) : list SignEvent :=
  [Signed
     (computePoseidonHashOnElements
        [BNstring transactionHash;
         BNstring (getMessageHash
                     (getSessionTypedData sessionRequest (chainId this))
                     accountAddress);
         BNnumber (if cache then 1 else 0)])
     (privateKey (dappKey this));
   BackendAsked
     (backendRequestOf this sessionRequest transactionHash calls accountAddress
        d cache)].


(** A call and an allowed method agree, as [getSessionProofs] compares
    them: the two strings of each pair are equal. *)
Definition callMatches (method : AllowedMethod) (call : Call) : Prop :=
  Contract_Address method = contractAddress call /\
  selector method = entrypoint call.

End Pipeline.

(** The signer details that [execute] of both account classes builds:
    the wallet account's address, version "0x1", the hex nonce and the
    fee settled on. *)
Definition sessionSignerDetails (account : AccountInterface) (base : AccountBase)
    (chain nonce : string) (fee : option BigNumberish) : InvocationsSignerDetails :=
  {| walletAddress := account_address account;
     cairoVersion := Some (match this_cairoVersion base with
                           | Some v => v
                           | None => "1"
                           end);
     chainId_of := chain;
     nonce := BNstring nonce;
     version := "0x1";
     maxFee := fee;
     resourceBounds := None;
     tip := None;
     paymasterData := None;
     accountDeploymentData := None;
     nonceDataAvailabilityMode := None;
     feeDataAvailabilityMode := None |}.

(** The session call that [sessionToCall] returns once its calldata is
    compiled. *)
Definition sessionCallOf (base : AccountBase) (compiled : list string)
    (details : option OffchainSessionDetails) : OffchainSessionCall :=
  {| osc_call := {| contractAddress := address base;
                    entrypoint := OFFCHAIN_SESSION_ENTRYPOINT;
                    calldata := Some (Calldata compiled) |};
     offchainSessionDetails := details |}.

(** The nonce that [execute] uses: the caller's, or else the account's. *)
Definition nonceSource (base : AccountBase) (details : InvocationsDetails)
  : Result BigNumberish :=
  match d_nonce details with
  | Some n => Ok n
  | None => getNonce base
  end.

(** The details that [OffchainSessionAccountV5.execute] reads: its second
    argument when that is a details object, its third otherwise. *)
Definition chosenDetails (abiOrDetails : option OffchainSessionAccountV5.AbiOrDetails)
    (transactionsDetail : InvocationsDetails) : InvocationsDetails :=
  match abiOrDetails with
  | Some (OffchainSessionAccountV5.Details d) => d
  | _ => transactionsDetail
  end.

(** V3 details from which the data-availability modes are missing. *)
Definition test_detailsWithoutModes : InvocationsSignerDetails :=
  {| walletAddress := "0xacc";
     cairoVersion := Some "1";
     chainId_of := "0x534e5f5345504f4c4941";
     nonce := BNnumber 1;
     version := "0x3";
     maxFee := None;
     resourceBounds := None;
     tip := None;
     paymasterData := None;
     accountDeploymentData := None;
     nonceDataAvailabilityMode := Some L1;
     feeDataAvailabilityMode := None |}.


(** An account whose provider cannot simulate. *)
Definition test_accountBaseWithoutSimulation : AccountBase :=
  {| address := address test_accountBase;
     signer := signer test_accountBase;
     this_cairoVersion := this_cairoVersion test_accountBase;
     getChainId := getChainId test_accountBase;
     getNonce := getNonce test_accountBase;
     simulateTransaction := fun _ _ => Throw "simulation failed";
     getSuggestedFee := fun _ _ => Ok {| suggestedMaxFee := 30 |} |}.

(** * Properties *)

(** ** Running asynchronous computations *)

Lemma bind_run {E A B : Type} (c : Async E A) (k : A -> Async E B) (tr : list E) :
  bind c k tr =
  match c tr with
  | (Ok a, tr1) => k a tr1
  | (Throw m, tr1) => (Throw m, tr1)
  end.
Proof. reflexivity. Qed.

Lemma bind_lift {E A B : Type} (r : Result A) (k : A -> Async E B) (tr : list E) :
  bind (lift r) k tr =
  match r with
  | Ok a => k a tr
  | Throw m => (Throw m, tr)
  end.
Proof. unfold bind, lift. destruct r; reflexivity. Qed.

Lemma bind_ret {E A B : Type} (a : A) (k : A -> Async E B) (tr : list E) :
  bind (ret a) k tr = k a tr.
Proof. reflexivity. Qed.

Lemma bind_emit {E B : Type} (e : E) (k : unit -> Async E B) (tr : list E) :
  bind (emit e) k tr = k tt (tr ++ [e])%list.
Proof. reflexivity. Qed.

Lemma bind_ok {E A B : Type} (c : Async E A) (k : A -> Async E B)
    (tr tr' : list E) (b : B) :
  bind c k tr = (Ok b, tr') ->
  exists a tr1, c tr = (Ok a, tr1) /\ k a tr1 = (Ok b, tr').
Proof.
  rewrite bind_run. destruct (c tr) as [[a | m] tr1]; intros H.
  - exists a, tr1. split; [reflexivity | exact H].
  - discriminate H.
Qed.

Lemma map_result_app {A B : Type} (f : A -> Result B) (l1 l2 : list A) :
  map_result f (l1 ++ l2) =
  result_bind (map_result f l1) (fun a =>
  result_bind (map_result f l2) (fun b => Ok (a ++ b)%list)).
Proof.
  induction l1 as [| x l1 IH]; simpl.
  - destruct (map_result f l2); reflexivity.
  - destruct (f x) as [y | m]; simpl; [| reflexivity].
    rewrite IH. destruct (map_result f l1) as [ys | m]; simpl; [| reflexivity].
    destruct (map_result f l2); reflexivity.
Qed.

Lemma findIndex_from_none {A : Type} (p : A -> bool) (l : list A) (i : Z) :
  (forall x, In x l -> p x = false) -> findIndex_from p l i = -1.
Proof.
  revert i. induction l as [| x l IH]; intros i Hnone; simpl.
  - reflexivity.
  - rewrite (Hnone x (or_introl eq_refl)).
    apply IH. intros y Hy. apply Hnone. right. exact Hy.
Qed.

Lemma js_index_negative {A : Type} (l : list A) : js_index l (-1) = None.
Proof. reflexivity. Qed.

(** The two version sets are disjoint. *)
Lemma version2_not_version3 (v : string) :
  includes ETransactionVersion2 v = true -> includes ETransactionVersion3 v = false.
Proof.
  unfold includes, ETransactionVersion2, ETransactionVersion3. simpl.
  intros H.
  repeat match type of H with
         | context [String.eqb v ?c] =>
             destruct (String.eqb_spec v c) as [e | _]; [rewrite e; reflexivity |]
         end.
  simpl in H. discriminate H.
Qed.

Lemma version3_not_version2 (v : string) :
  includes ETransactionVersion3 v = true -> includes ETransactionVersion2 v = false.
Proof.
  intros H3. destruct (includes ETransactionVersion2 v) eqn:H2; [| reflexivity].
  apply version2_not_version3 in H2. congruence.
Qed.

Lemma SESSION_MAGIC_value : SESSION_MAGIC = "0x73657373696f6e2d746f6b656e".
Proof. reflexivity. Qed.

Section Proofs.
Context {lib : StarknetJs} {utils : SessionUtils}.

(** ** The value signed by the session key *)

(** C1.  Whatever the transaction hash, the account address, the session
    typed data and the cache flag, [signTxAndSession] makes exactly one
    call to the signing primitive with the dapp's private key, and the
    value it signs is the Poseidon hash of the three elements
    (transaction hash, typed-data message hash of the session for that
    account address, the flag as 0 or 1); it returns the two components
    of that signature. *)
Theorem signTxAndSession_signs_poseidon_triple
    (this : DappService) (transactionHash accountAddress : string)
    (sessionTypedData : TypedData) (cacheAuthorisation : bool)
    (tr : list SignEvent) :
  let sessionMessageHash := getMessageHash sessionTypedData accountAddress in
  let signed :=
    computePoseidonHashOnElements
      [BNstring transactionHash; BNstring sessionMessageHash;
       BNnumber (if cacheAuthorisation then 1 else 0)] in
  let signature := starkCurve_sign signed (privateKey (dappKey this)) in
  signTxAndSession this transactionHash accountAddress sessionTypedData
    cacheAuthorisation tr
  = (Ok [sig_r signature; sig_s signature],
     (tr ++ [Signed signed (privateKey (dappKey this))])%list).
Proof.
  cbv zeta. unfold signTxAndSession, sign, sessionWithTxHash, unary_plus.
  rewrite !bind_run. simpl. reflexivity.
Qed.

(** ** Version dispatch *)

Lemma calculateInvokeTransactionHash_v2 (d : InvocationsSignerDetails)
    (compiledCalldata : list string) :
  includes ETransactionVersion2 (version d) = true ->
  calculateInvokeTransactionHash (v2HashArgs d compiledCalldata)
  = v2calculateInvokeTransactionHash (walletAddress d) (version d)
      compiledCalldata (maxFee d) (chainId_of d) (nonce d).
Proof.
  intros H2. unfold calculateInvokeTransactionHash, isV3InvokeTx.
  change (a_version (v2HashArgs d compiledCalldata)) with (version d).
  rewrite (version2_not_version3 _ H2). reflexivity.
Qed.

Lemma calculateInvokeTransactionHash_v3 (d : InvocationsSignerDetails)
    (compiledCalldata : list string) (nonceDAM feeDAM : Z) :
  includes ETransactionVersion3 (version d) = true ->
  calculateInvokeTransactionHash (v3HashArgs d compiledCalldata nonceDAM feeDAM)
  = v3calculateInvokeTransactionHash (walletAddress d) (version d)
      compiledCalldata (chainId_of d) (nonce d) (accountDeploymentData d)
      (Some (DACode nonceDAM)) (Some (DACode feeDAM))
      (resourceBounds d) (tip d) (paymasterData d).
Proof.
  intros H3. unfold calculateInvokeTransactionHash, isV3InvokeTx.
  change (a_version (v3HashArgs d compiledCalldata nonceDAM feeDAM)) with (version d).
  rewrite H3. reflexivity.
Qed.

(** A request whose execute calldata cannot be compiled fails with the
    error of [getExecuteCalldata], whatever its version, before anything
    is signed. *)
Lemma signTransaction_calldata_failure
    (this : DappService) (sessionAuthorizationSignature : list string)
    (sessionRequest : OffChainSession) (calls : list Call)
    (d : InvocationsSignerDetails) (cacheAuthorisation : bool)
    (tr : list SignEvent) (m : string) :
  getExecuteCalldata calls (cairoVersion d) = Throw m ->
  signTransaction this sessionAuthorizationSignature sessionRequest calls d
    cacheAuthorisation tr = (Throw m, tr).
Proof.
  intros Hcalldata. unfold signTransaction. rewrite bind_lift, Hcalldata.
  reflexivity.
Qed.

(** C2, as the code has it.  The execute calldata of the batch is
    compiled first.  Once it is compiled, [signTransaction] selects the
    hash by the version of the signer details.  For a V2 version the
    transaction hash handed on is the legacy invoke hash of (sender,
    version, calldata, max fee, chain id, nonce).  For a V3 version whose
    two data-availability modes are present it is the V3 invoke hash,
    which receives the integer codes of the nonce and fee modes.  For a
    version in neither set the call fails at once with the
    unsupported-version error and the trace of collaborator calls is
    unchanged: nothing was signed and the backend was not asked. *)
Theorem signTransaction_version_dispatch
    (this : DappService) (sessionAuthorizationSignature : list string)
    (sessionRequest : OffChainSession) (calls : list Call)
    (d : InvocationsSignerDetails) (cacheAuthorisation : bool)
    (tr : list SignEvent) (compiledCalldata : list string) :
  getExecuteCalldata calls (cairoVersion d) = Ok compiledCalldata ->
  (includes ETransactionVersion2 (version d) = true ->
   signTransaction this sessionAuthorizationSignature sessionRequest calls d
     cacheAuthorisation tr
   = match v2calculateInvokeTransactionHash (walletAddress d) (version d)
             compiledCalldata (maxFee d) (chainId_of d) (nonce d) with
     | Ok txHash =>
         compileSessionSignature this sessionAuthorizationSignature
           sessionRequest txHash calls (walletAddress d) d cacheAuthorisation tr
     | Throw m => (Throw m, tr)
     end)
  /\
  (includes ETransactionVersion3 (version d) = true ->
   forall nonceMode feeMode : EDataAvailabilityMode,
   nonceDataAvailabilityMode d = Some nonceMode ->
   feeDataAvailabilityMode d = Some feeMode ->
   signTransaction this sessionAuthorizationSignature sessionRequest calls d
     cacheAuthorisation tr
   = match v3calculateInvokeTransactionHash (walletAddress d) (version d)
             compiledCalldata (chainId_of d) (nonce d) (accountDeploymentData d)
             (Some (DACode match nonceMode with L1 => 0 | L2 => 1 end))
             (Some (DACode match feeMode with L1 => 0 | L2 => 1 end))
             (resourceBounds d) (tip d) (paymasterData d) with
     | Ok txHash =>
         compileSessionSignature this sessionAuthorizationSignature
           sessionRequest txHash calls (walletAddress d) d cacheAuthorisation tr
     | Throw m => (Throw m, tr)
     end)
  /\
  (includes ETransactionVersion2 (version d) = false ->
   includes ETransactionVersion3 (version d) = false ->
   signTransaction this sessionAuthorizationSignature sessionRequest calls d
     cacheAuthorisation tr
   = (Throw "unsupported signTransaction version", tr)).
Proof.
  intros Hcalldata. unfold signTransaction. rewrite bind_lift, Hcalldata.
  repeat split.
  - intros H2. rewrite H2, bind_lift.
    rewrite (calculateInvokeTransactionHash_v2 _ _ H2). reflexivity.
  - intros H3 nonceMode feeMode Hn Hf.
    rewrite (version3_not_version2 _ H3), H3, Hn, Hf.
    rewrite bind_run. simpl intDAM. rewrite !bind_lift.
    rewrite (calculateInvokeTransactionHash_v3 _ _ _ _ H3).
    destruct nonceMode, feeMode; reflexivity.
  - intros H2 H3. rewrite H2, H3. reflexivity.
Qed.

(** ** The session token *)

Lemma compileSessionTokenHelper_ok
    (this : DappService) (onChainSession : OnChainSession)
    (sessionRequest : OffChainSession) (calls : list Call)
    (sessionSig : list Z) (authorization : list string)
    (guardian : BackendSignatureResponse) (cache : bool) (token : SessionToken) :
  compileSessionTokenHelper this onChainSession sessionRequest calls sessionSig
    authorization guardian cache = Ok token ->
  exists callProofs,
    getSessionProofs sessionRequest calls = Ok callProofs /\
    token =
    {| session := onChainSession;
       cache_authorization := cache;
       session_authorization := authorization;
       sessionSignature :=
         getStarknetSignatureType (BNstring (publicKey (dappKey this))) sessionSig;
       guardianSignature :=
         getStarknetSignatureType (BNstring (bs_publicKey guardian))
           [bs_r guardian; bs_s guardian];
       proofs := callProofs |}.
Proof.
  unfold compileSessionTokenHelper.
  destruct (getSessionProofs sessionRequest calls) as [callProofs | m]; simpl; intros H.
  - exists callProofs. split; [reflexivity |]. injection H as <-. reflexivity.
  - discriminate H.
Qed.

(** A successful [compileSessionSignature] signed the combined hash,
    asked the backend once, and returned the magic followed by the
    encoding of the token built from both signatures. *)
Lemma compileSessionSignature_ok
    (this : DappService) (sessionAuthorizationSignature : list string)
    (sessionRequest : OffChainSession) (transactionHash : string)
    (calls : list Call) (accountAddress : string)
    (d : InvocationsSignerDetails) (cacheAuthorisation : bool)
    (tr tr' : list SignEvent) (sig : list string) :
  compileSessionSignature this sessionAuthorizationSignature sessionRequest
    transactionHash calls accountAddress d cacheAuthorisation tr = (Ok sig, tr') ->
  let sessionTypedData := getSessionTypedData sessionRequest (chainId this) in
  let signed :=
    sessionWithTxHash transactionHash accountAddress sessionTypedData
      cacheAuthorisation in
  let signature := starkCurve_sign signed (privateKey (dappKey this)) in
  let sessionSig := [sig_r signature; sig_s signature] in
  let request :=
    {| rq_calls := calls;
       rq_invocationSignerDetails := d;
       rq_sessionTypedData := sessionTypedData;
       rq_sessionSignature := sessionSig;
       rq_cacheAuthorisation := cacheAuthorisation |} in
  exists guardian token rest,
    argentBackend this request = Ok guardian /\
    compileSessionTokenHelper this (compileSessionHelper sessionRequest)
      sessionRequest calls sessionSig sessionAuthorizationSignature guardian
      cacheAuthorisation = Ok token /\
    CallData_compile (rawSessionToken token) = Ok rest /\
    sig = SESSION_MAGIC :: rest /\
    tr' = (tr ++ [Signed signed (privateKey (dappKey this));
                  BackendAsked request])%list.
Proof.
  cbv zeta. unfold compileSessionSignature, signTxAndSession, sign, askBackend.
  rewrite !bind_run. simpl. rewrite !bind_run. simpl.
  match goal with
  | |- context [argentBackend this ?r] =>
      destruct (argentBackend this r) as [guardian | m] eqn:Hbackend
  end; simpl; [| discriminate].
  rewrite !bind_lift.
  match goal with
  | |- context [compileSessionTokenHelper ?a ?b ?c ?e ?f ?g ?h ?i] =>
      destruct (compileSessionTokenHelper a b c e f g h i) as [token | m] eqn:Htoken
  end; [| discriminate].
  rewrite bind_lift.
  destruct (CallData_compile (rawSessionToken token)) as [rest | m] eqn:Hcompile;
    [| discriminate].
  unfold ret. intros H. injection H as <- <-.
  exists guardian, token, rest.
  rewrite <- app_assoc. simpl. repeat split; assumption || reflexivity.
Qed.

(** A successful [signTransaction] is a successful
    [compileSessionSignature] on some transaction hash. *)
Lemma signTransaction_ok
    (this : DappService) (sessionAuthorizationSignature : list string)
    (sessionRequest : OffChainSession) (calls : list Call)
    (d : InvocationsSignerDetails) (cacheAuthorisation : bool)
    (tr tr' : list SignEvent) (sig : list string) :
  signTransaction this sessionAuthorizationSignature sessionRequest calls d
    cacheAuthorisation tr = (Ok sig, tr') ->
  exists txHash,
    compileSessionSignature this sessionAuthorizationSignature sessionRequest
      txHash calls (walletAddress d) d cacheAuthorisation tr = (Ok sig, tr').
Proof.
  unfold signTransaction. intros H.
  rewrite bind_lift in H.
  destruct (getExecuteCalldata calls (cairoVersion d)) as [compiledCalldata | m];
    [| discriminate H].
  apply bind_ok in H. destruct H as (txHash & tr1 & Hhash & Hrest).
  exists txHash.
  assert (tr1 = tr) as ->; [| exact Hrest].
  destruct (includes ETransactionVersion2 (version d)).
  - unfold lift in Hhash. congruence.
  - destruct (includes ETransactionVersion3 (version d)).
    + rewrite !bind_lift in Hhash.
      destruct (intDAM (nonceDataAvailabilityMode d)); [| discriminate].
      rewrite bind_lift in Hhash.
      destruct (intDAM (feeDataAvailabilityMode d)); [| discriminate].
      unfold lift in Hhash. congruence.
    + discriminate Hhash.
Qed.

(** C3.  When a signing request succeeds, the signature array it returns
    starts with the constant [encodeShortString("session-token")] and
    continues with the call-data encoding of the session token, an object
    whose properties are, in this order: the compiled session (expiry,
    root of the tree of allowed methods, metadata hash, key guid), the
    cache flag, the authorization signature, the session signature and
    the guardian signature, each an object of public key, r and s tagged
    with the Starknet signer type (the dapp key with its signature of the
    combined hash, the backend's key with the backend's answer), and the
    proofs of the calls, one array per call. *)
Theorem signature_is_magic_then_token
    (this : DappService) (sessionAuthorizationSignature : list string)
    (sessionRequest : OffChainSession) (calls : list Call)
    (d : InvocationsSignerDetails) (cacheAuthorisation : bool)
    (tr tr' : list SignEvent) (sig : list string) :
  signTransaction this sessionAuthorizationSignature sessionRequest calls d
    cacheAuthorisation tr = (Ok sig, tr') ->
  encodeShortString "session-token" = Ok "0x73657373696f6e2d746f6b656e" /\
  exists (rest : list string) (txHash : string)
         (guardian : BackendSignatureResponse) (callProofs : list (list string)),
    let sessionTypedData := getSessionTypedData sessionRequest (chainId this) in
    let signed :=
      computePoseidonHashOnElements
        [BNstring txHash;
         BNstring (getMessageHash sessionTypedData (walletAddress d));
         BNnumber (if cacheAuthorisation then 1 else 0)] in
    let signature := starkCurve_sign signed (privateKey (dappKey this)) in
    let tree :=
      MerkleTree_new (map allowedMethodLeaf (allowed_methods sessionRequest))
        computePoseidonHash in
    let bArray := byteArrayFromString (metadata sessionRequest) in
    let hexArray := fun l : list string => RArray (map (fun s => RFelt (BNstring s)) l) in
    sig = "0x73657373696f6e2d746f6b656e" :: rest /\
    argentBackend this
      {| rq_calls := calls;
         rq_invocationSignerDetails := d;
         rq_sessionTypedData := sessionTypedData;
         rq_sessionSignature := [sig_r signature; sig_s signature];
         rq_cacheAuthorisation := cacheAuthorisation |} = Ok guardian /\
    map_result
      (fun call =>
         getProof tree (js_index (leaves tree) (allowedIndex sessionRequest call))
           (leaves tree))
      calls = Ok callProofs /\
    CallData_compile
      (RObject
         [("session",
           RObject
             [("expires_at", RFelt (expires_at sessionRequest));
              ("allowed_methods_root", RFelt (BNstring (root tree)));
              ("metadata_hash",
               RFelt (BNstring
                        (computePoseidonHashOnElements
                           (BNnumber (Z.of_nat (List.length (data bArray)))
                            :: data bArray
                            ++ [pending_word bArray;
                                BNnumber (pending_word_len bArray)])%list)));
              ("session_key_guid", RFelt (session_key_guid sessionRequest))]);
          ("cache_authorization", RBool cacheAuthorisation);
          ("session_authorization", hexArray sessionAuthorizationSignature);
          ("sessionSignature",
           signerTypeToCustomEnum SignerType_Starknet
             (RObject [("pubkey", RFelt (BNstring (publicKey (dappKey this))));
                       ("r", RFelt (BNbigint (sig_r signature)));
                       ("s", RFelt (BNbigint (sig_s signature)))]));
          ("guardianSignature",
           signerTypeToCustomEnum SignerType_Starknet
             (RObject [("pubkey", RFelt (BNstring (bs_publicKey guardian)));
                       ("r", RFelt (BNbigint (bs_r guardian)));
                       ("s", RFelt (BNbigint (bs_s guardian)))]));
          ("proofs", RArray (map hexArray callProofs))])
    = Ok rest.
Proof.
  intros H. split; [reflexivity |].
  apply signTransaction_ok in H. destruct H as (txHash & H).
  apply compileSessionSignature_ok in H. cbv zeta in H.
  destruct H as (guardian & token & rest & Hbackend & Htoken & Hcompile & Hsig & _).
  apply compileSessionTokenHelper_ok in Htoken.
  destruct Htoken as (callProofs & Hproofs & ->).
  exists rest, txHash, guardian, callProofs. cbv zeta.
  split; [exact Hsig |]. split; [exact Hbackend |]. split; [exact Hproofs |].
  exact Hcompile.
Qed.

(** C8.  The owner's authorization signature is not touched: the token
    built by [compileSessionTokenHelper] holds in [session_authorization]
    the very array it was given, and in a successful signing request the
    token that is encoded holds the array passed to [signTransaction],
    which is the value of the property [session_authorization] of the
    encoded object. *)
Theorem session_authorization_passes_through
    (this : DappService) (sessionAuthorizationSignature : list string)
    (sessionRequest : OffChainSession) (calls : list Call) :
  (forall onChainSession sessionSig guardian cache token,
     compileSessionTokenHelper this onChainSession sessionRequest calls sessionSig
       sessionAuthorizationSignature guardian cache = Ok token ->
     session_authorization token = sessionAuthorizationSignature)
  /\
  (forall d cache tr tr' sig,
     signTransaction this sessionAuthorizationSignature sessionRequest calls d
       cache tr = (Ok sig, tr') ->
     exists token rest,
       sig = SESSION_MAGIC :: rest /\
       CallData_compile (rawSessionToken token) = Ok rest /\
       session_authorization token = sessionAuthorizationSignature /\
       In ("session_authorization",
           RArray (map (fun s => RFelt (BNstring s)) sessionAuthorizationSignature))
          match rawSessionToken token with
          | RObject fields => fields
          | _ => []
          end).
Proof.
  split.
  - intros onChainSession sessionSig guardian cache token H.
    apply compileSessionTokenHelper_ok in H. destruct H as (callProofs & _ & ->).
    reflexivity.
  - intros d cache tr tr' sig H.
    apply signTransaction_ok in H. destruct H as (txHash & H).
    apply compileSessionSignature_ok in H. cbv zeta in H.
    destruct H as (guardian & token & rest & _ & Htoken & Hcompile & Hsig & _).
    apply compileSessionTokenHelper_ok in Htoken.
    destruct Htoken as (callProofs & _ & ->).
    eexists _, rest.
    split; [exact Hsig |]. split; [exact Hcompile |]. split; [reflexivity |].
    simpl. right. right. left. reflexivity.
Qed.

(** ** The permission tree *)

Lemma allowedIndex_unmatched (sessionRequest : OffChainSession) (call : Call) :
  (forall method, In method (allowed_methods sessionRequest) ->
     ~ (Contract_Address method = contractAddress call /\
        selector method = entrypoint call)) ->
  allowedIndex sessionRequest call = -1.
Proof.
  intros Hnone. unfold allowedIndex, findIndex.
  apply findIndex_from_none. intros method Hin.
  destruct (String.eqb_spec (Contract_Address method) (contractAddress call)) as [Ha | Ha];
    [| reflexivity].
  destruct (String.eqb_spec (selector method) (entrypoint call)) as [Hs | Hs];
    [| reflexivity].
  exfalso. exact (Hnone method Hin (conj Ha Hs)).
Qed.

(** C4.  For a call of the batch that matches no allowed method,
    [getSessionProofs] performs no membership check of its own: the index
    search yields [-1], the leaf read at that index is [undefined], and
    the entry of that call in the result is whatever the tree's
    [getProof] answers for an [undefined] leaf.  The batch as a whole
    yields the proofs of the calls before it, that answer, and the proofs
    of the calls after it; the only failures are those of [getProof]. *)
Theorem unmatched_call_proof_is_lookup_of_undefined_leaf
    (sessionRequest : OffChainSession) (before after : list Call) (call : Call) :
  (forall method, In method (allowed_methods sessionRequest) ->
     ~ (Contract_Address method = contractAddress call /\
        selector method = entrypoint call)) ->
  let tree := buildMerkleTree sessionRequest in
  allowedIndex sessionRequest call = -1 /\
  js_index (leaves tree) (allowedIndex sessionRequest call) = None /\
  getSessionProofs sessionRequest (before ++ call :: after) =
    result_bind (getSessionProofs sessionRequest before) (fun proofsBefore =>
    result_bind (getProof tree None (leaves tree)) (fun proof =>
    result_bind (getSessionProofs sessionRequest after) (fun proofsAfter =>
    Ok (proofsBefore ++ proof :: proofsAfter)%list))).
Proof.
  intros Hnone tree.
  pose proof (allowedIndex_unmatched sessionRequest call Hnone) as Hidx.
  split; [exact Hidx |]. split; [rewrite Hidx; apply js_index_negative |].
  unfold getSessionProofs. fold tree.
  rewrite map_result_app. simpl. rewrite Hidx, js_index_negative.
  destruct (map_result _ before) as [proofsBefore | m]; simpl; [| reflexivity].
  destruct (getProof tree None (leaves tree)) as [proof | m]; simpl; [| reflexivity].
  destruct (map_result _ after) as [proofsAfter | m]; simpl; reflexivity.
Qed.

(** C5.  The root stored in the compiled session and the proofs of the
    calls come from one and the same tree: the tree over the leaves of
    [allowed_methods], taken in the order of the request.  This holds for
    the two helpers, and therefore inside every successful signing
    request, whose token carries that root together with proofs produced
    by that tree. *)
Theorem root_and_proofs_share_one_tree
    (this : DappService) (sessionRequest : OffChainSession) (calls : list Call) :
  let leafHashes := map allowedMethodLeaf (allowed_methods sessionRequest) in
  let tree := MerkleTree_new leafHashes computePoseidonHash in
  let proofOf := fun call =>
    getProof tree (js_index (leaves tree) (allowedIndex sessionRequest call))
      (leaves tree) in
  allowed_methods_root (compileSessionHelper sessionRequest) = root tree /\
  getSessionProofs sessionRequest calls = map_result proofOf calls /\
  (forall authorization d cache tr tr' sig,
     signTransaction this authorization sessionRequest calls d cache tr
       = (Ok sig, tr') ->
     exists token rest,
       sig = SESSION_MAGIC :: rest /\
       CallData_compile (rawSessionToken token) = Ok rest /\
       allowed_methods_root (session token) = root tree /\
       map_result proofOf calls = Ok (proofs token)).
Proof.
  cbv zeta. split; [reflexivity |]. split; [reflexivity |].
  intros authorization d cache tr tr' sig H.
  apply signTransaction_ok in H. destruct H as (txHash & H).
  apply compileSessionSignature_ok in H. cbv zeta in H.
  destruct H as (guardian & token & rest & _ & Htoken & Hcompile & Hsig & _).
  apply compileSessionTokenHelper_ok in Htoken.
  destruct Htoken as (callProofs & Hproofs & ->).
  eexists _, rest.
  split; [exact Hsig |]. split; [exact Hcompile |]. split; [reflexivity |].
  exact Hproofs.
Qed.

(** ** The hashes of the session *)

(** C6.  The metadata hash of the compiled session is the Poseidon hash
    of the elements of the byte array of the metadata string, in this
    order: the number of data words, the data words, the pending word,
    the length of the pending word. *)
Theorem metadata_hash_of_byte_array (sessionRequest : OffChainSession) :
  let bArray := byteArrayFromString (metadata sessionRequest) in
  metadata_hash (compileSessionHelper sessionRequest)
  = computePoseidonHashOnElements
      (BNnumber (Z.of_nat (List.length (data bArray)))
       :: data bArray
       ++ [pending_word bArray; BNnumber (pending_word_len bArray)])%list.
Proof. reflexivity. Qed.

(** Whatever the hash, the sequences hashed for the two values of the
    cache flag denote different sequences of field elements. *)
Lemma combined_hash_inputs_differ (transactionHash sessionMessageHash : string) :
  map bigIntOf
    [BNstring transactionHash; BNstring sessionMessageHash;
     BNnumber (unary_plus false)]
  <> map bigIntOf
       [BNstring transactionHash; BNstring sessionMessageHash;
        BNnumber (unary_plus true)].
Proof. simpl. intros H. discriminate H. Qed.

(** ** The session-bound signer *)

(** C9.  [signRaw] of the session signer throws "Method not implemented."
    on every input and calls no collaborator, while [signTransaction] of
    the signer of the account built by [getAccountWithSessionSigner] is
    the signing request of the service. *)
Theorem signRaw_is_not_implemented
    (sessionSigner : SessionSigner) (message : string) (tr : list SignEvent) :
  SessionSigner_signRaw sessionSigner message tr
    = (Throw "Method not implemented.", tr)
  /\
  (forall this address sessionRequest authorization cache calls d,
     SessionSigner_signTransaction
       (sa_signer (getAccountWithSessionSigner this address sessionRequest
                     authorization cache))
       calls d
     = signTransaction this authorization sessionRequest calls d
         match cache with
         | Some b => b
         | None => false
         end).
Proof.
  split; [reflexivity |]. intros. reflexivity.
Qed.

End Proofs.

(** ** The session call of the offchain session accounts *)

Section AccountProofs.
Context {lib : StarknetJs} {utils : SessionUtils}.

(** Estimating the fee submits nothing. *)
Lemma estimateMaxFee_trace (base : AccountBase) (calls : CallOrCalls)
    (nonce : string) (tr : list SubmitEvent) :
  exists r, estimateMaxFee base calls nonce tr = (r, tr).
Proof.
  unfold estimateMaxFee, try_catch. rewrite bind_lift.
  destruct (simulateTransaction base calls nonce) as [[| estimation sim] | m].
  - unfold throw. rewrite bind_lift.
    destruct (getSuggestedFee base calls nonce); eexists; reflexivity.
  - eexists; reflexivity.
  - rewrite bind_lift.
    destruct (getSuggestedFee base calls nonce); eexists; reflexivity.
Qed.

Lemma nonce_step (base : AccountBase) (details : InvocationsDetails)
    (tr : list SubmitEvent) :
  match d_nonce details with
  | Some n => ret n
  | None => lift (getNonce base)
  end tr
  = (match d_nonce details with
     | Some n => Ok n
     | None => getNonce base
     end, tr).
Proof. destruct (d_nonce details); reflexivity. Qed.

(** C10, as the code has it.  Whenever [execute] of either account class
    hands calls over for submission, it does so once and returns the
    answer it gets.  The list handed over is the session call followed by
    the calls of the batch in their order, one element longer than the
    batch.  The session call targets the address of the session account
    with the entrypoint "use_offchain_session", and its calldata is the
    encoding of the signer's public key, then the first two elements of
    the formatted dapp signature, then the first four elements of the
    formatted session signature stored in the account.  The dapp
    signature is the one the account's signer gave for the batch, under
    the wallet account's address, version "0x1", the hex nonce and the
    fee.  When nothing is handed over, [execute] has failed. *)
Theorem session_call_is_prepended_to_submitted_calls (calls : CallOrCalls) :
  (forall (this : OffchainSessionAccount.t) abis details tr r tr',
     OffchainSessionAccount.execute this calls abis details tr = (r, tr') ->
     (tr' = tr /\ exists m, r = Throw m) \/
     exists (chain : string) (nonceValue fee : BigNumberish)
            (dappSignature : Signature) (formatted signature : list string)
            (signerPubKey : string) (compiled : list string),
       let base := OffchainSessionAccount.base this in
       let nonce := toHex nonceValue in
       let sessionCall :=
         {| contract_address := address base;
            wc_entrypoint := "use_offchain_session";
            wc_calldata := Some (Calldata compiled);
            wc_offchainSessionDetails :=
              Some {| osd_nonce := BNstring nonce;
                      osd_maxFee := BNstring (BigNumberish_toString fee);
                      osd_version := "0x1" |} |} in
       let submitted :=
         sessionCall
         :: map (fun call =>
                   {| contract_address := contractAddress call;
                      wc_entrypoint := entrypoint call;
                      wc_calldata := calldata call;
                      wc_offchainSessionDetails := None |})
              (ensureArray calls) in
       getChainId base = Ok chain /\
       match d_nonce details with
       | Some n => Ok n
       | None => getNonce base
       end = Ok nonceValue /\
       estimateMaxFee base calls nonce tr = (Ok fee, tr) /\
       signer_signTransaction (signer base) (ensureArray calls)
         {| walletAddress := account_address (OffchainSessionAccount.account this);
            cairoVersion := Some match this_cairoVersion base with
                                 | Some v => v
                                 | None => "1"
                                 end;
            chainId_of := chain;
            nonce := BNstring nonce;
            version := "0x1";
            maxFee := Some fee;
            resourceBounds := None;
            tip := None;
            paymasterData := None;
            accountDeploymentData := None;
            nonceDataAvailabilityMode := None;
            feeDataAvailabilityMode := None |} abis = Ok dappSignature /\
       formatSignature dappSignature = Ok formatted /\
       formatSignature (OffchainSessionAccount.sessionSignature this) = Ok signature /\
       getPubKey (signer base) = Ok signerPubKey /\
       CallData_compile
         (RObject [("signer", RFelt (BNstring signerPubKey));
                   ("token1", element formatted 0);
                   ("token2", element formatted 1);
                   ("token3", element signature 0);
                   ("token4", element signature 1);
                   ("token5", element signature 2);
                   ("token6", element signature 3)]) = Ok compiled /\
       List.length submitted = S (List.length (ensureArray calls)) /\
       tr' = (tr ++ [WalletRequested "starknet_addInvokeTransaction"
                       {| wp_calls := submitted |}])%list /\
       r = request (OffchainSessionAccount.wallet this)
               "starknet_addInvokeTransaction" {| wp_calls := submitted |})
  /\
  (forall (this : OffchainSessionAccountV5.t) abiOrDetails transactionsDetail
          tr r tr',
     OffchainSessionAccountV5.execute this calls abiOrDetails transactionsDetail tr
     = (r, tr') ->
     (tr' = tr /\ exists m, r = Throw m) \/
     exists (chain : string) (nonceValue fee : BigNumberish)
            (dappSignature : Signature) (formatted signature : list string)
            (signerPubKey : string) (compiled : list string),
       let base := OffchainSessionAccountV5.base this in
       let details :=
         match abiOrDetails with
         | Some (OffchainSessionAccountV5.Details given) => given
         | _ => transactionsDetail
         end in
       let nonce := toHex nonceValue in
       let submitted :=
         {| osc_call := {| contractAddress := address base;
                           entrypoint := "use_offchain_session";
                           calldata := Some (Calldata compiled) |};
            offchainSessionDetails := None |}
         :: map (fun call => {| osc_call := call; offchainSessionDetails := None |})
              (ensureArray calls) in
       let executeDetails :=
         {| d_nonce := Some (BNstring nonce);
            d_maxFee := Some (BNstring (BigNumberish_toString fee));
            d_version := Some "0x1" |} in
       getChainId base = Ok chain /\
       match d_nonce details with
       | Some n => Ok n
       | None => getNonce base
       end = Ok nonceValue /\
       ((falsy (d_maxFee details) = false /\ d_maxFee details = Some fee) \/
        (falsy (d_maxFee details) = true /\
         estimateMaxFee base calls nonce tr = (Ok fee, tr))) /\
       signer_signTransaction (signer base) (ensureArray calls)
         {| walletAddress := account_address (OffchainSessionAccountV5.account this);
            cairoVersion := Some match this_cairoVersion base with
                                 | Some v => v
                                 | None => "1"
                                 end;
            chainId_of := chain;
            nonce := BNstring nonce;
            version := "0x1";
            maxFee := Some fee;
            resourceBounds := None;
            tip := None;
            paymasterData := None;
            accountDeploymentData := None;
            nonceDataAvailabilityMode := None;
            feeDataAvailabilityMode := None |} None = Ok dappSignature /\
       formatSignature dappSignature = Ok formatted /\
       formatSignature (OffchainSessionAccountV5.sessionSignature this) = Ok signature /\
       getPubKey (signer base) = Ok signerPubKey /\
       CallData_compile
         (RObject [("signer", RFelt (BNstring signerPubKey));
                   ("token1", element formatted 0);
                   ("token2", element formatted 1);
                   ("token3", element signature 0);
                   ("token4", element signature 1);
                   ("token5", element signature 2);
                   ("token6", element signature 3)]) = Ok compiled /\
       List.length submitted = S (List.length (ensureArray calls)) /\
       tr' = (tr ++ [AccountExecuted submitted executeDetails])%list /\
       r = account_execute (OffchainSessionAccountV5.account this) submitted
               executeDetails).
Proof.
  split.
  - intros this abis details tr r tr' H.
    unfold OffchainSessionAccount.execute in H.
    rewrite bind_lift in H.
    destruct (getChainId (OffchainSessionAccount.base this)) as [chain | m] eqn:Hchain;
      [| injection H as <- <-; left; eauto].
    rewrite bind_run, nonce_step in H.
    destruct (match d_nonce details with
              | Some n => Ok n
              | None => getNonce (OffchainSessionAccount.base this)
              end) as [nonceValue | m] eqn:Hnonce;
      [| injection H as <- <-; left; eauto].
    rewrite bind_run in H.
    destruct (estimateMaxFee_trace (OffchainSessionAccount.base this) calls
                (toHex nonceValue) tr) as ([fee | m] & Hfee);
      rewrite Hfee in H; [| injection H as <- <-; left; eauto].
    rewrite bind_lift in H.
    match type of H with
    | context [signer_signTransaction ?sg ?cs ?dt ?ab] =>
        destruct (signer_signTransaction sg cs dt ab) as [dappSignature | m] eqn:Hsign
    end; [| injection H as <- <-; left; eauto].
    unfold OffchainSessionAccount.extendCallsBySession,
      OffchainSessionAccount.sessionToCall in H.
    rewrite bind_run, bind_run in H.
    rewrite bind_lift in H.
    destruct (formatSignature (OffchainSessionAccount.sessionSignature this))
      as [signature | m] eqn:Hsession;
      [| injection H as <- <-; left; eauto].
    rewrite bind_lift in H.
    destruct (formatSignature dappSignature) as [formatted | m] eqn:Hdapp;
      [| injection H as <- <-; left; eauto].
    rewrite bind_lift in H.
    destruct (getPubKey (signer (OffchainSessionAccount.base this)))
      as [signerPubKey | m] eqn:Hkey;
      [| injection H as <- <-; left; eauto].
    rewrite bind_lift in H.
    destruct (CallData_compile (sessionCallArgs signerPubKey formatted signature))
      as [compiled | m] eqn:Hcompile;
      [| injection H as <- <-; left; eauto].
    cbv beta iota in H. unfold ret at 1 in H. cbv beta iota in H.
    unfold ret at 1 in H. cbv beta iota in H.
    rewrite bind_emit in H. unfold lift in H. injection H as <- <-.
    right.
    exists chain, nonceValue, fee, dappSignature, formatted, signature,
      signerPubKey, compiled.
    cbv zeta.
    repeat (split; [first [assumption | reflexivity] |]).
    split; [simpl; rewrite !length_map; reflexivity |].
    split; [rewrite map_map; reflexivity | rewrite map_map; reflexivity].
  - intros this abiOrDetails transactionsDetail tr r tr' H.
    unfold OffchainSessionAccountV5.execute in H.
    rewrite bind_lift in H.
    destruct (getChainId (OffchainSessionAccountV5.base this)) as [chain | m] eqn:Hchain;
      [| injection H as <- <-; left; eauto].
    change (match abiOrDetails with
            | Some (OffchainSessionAccountV5.Abis _) => transactionsDetail
            | Some (OffchainSessionAccountV5.Details d) => d
            | None => transactionsDetail
            end) with (chosenDetails abiOrDetails transactionsDetail) in H.
    rewrite bind_run, nonce_step in H.
    destruct (match d_nonce (chosenDetails abiOrDetails transactionsDetail) with
              | Some n => Ok n
              | None => getNonce (OffchainSessionAccountV5.base this)
              end) as [nonceValue | m] eqn:Hnonce;
      [| injection H as <- <-; left; eauto].
    rewrite bind_run in H.
    destruct (falsy (d_maxFee (chosenDetails abiOrDetails transactionsDetail)))
      eqn:Hfalsy.
    + rewrite bind_run in H.
      destruct (estimateMaxFee_trace (OffchainSessionAccountV5.base this) calls
                  (toHex nonceValue) tr) as ([fee | m] & Hfee);
        rewrite Hfee in H; [| injection H as <- <-; left; eauto].
      unfold ret at 1 in H. cbv beta iota in H.
      rewrite bind_lift in H.
      match type of H with
      | context [signer_signTransaction ?sg ?cs ?dt ?ab] =>
          destruct (signer_signTransaction sg cs dt ab) as [dappSignature | m] eqn:Hsign
      end; [| injection H as <- <-; left; eauto].
      unfold OffchainSessionAccountV5.extendCallsBySession,
        OffchainSessionAccountV5.sessionToCall in H.
      rewrite bind_run, bind_run in H.
      rewrite bind_lift in H.
      destruct (formatSignature (OffchainSessionAccountV5.sessionSignature this))
        as [signature | m] eqn:Hsession;
        [| injection H as <- <-; left; eauto].
      rewrite bind_lift in H.
      destruct (formatSignature dappSignature) as [formatted | m] eqn:Hdapp;
        [| injection H as <- <-; left; eauto].
      rewrite bind_lift in H.
      destruct (getPubKey (signer (OffchainSessionAccountV5.base this)))
        as [signerPubKey | m] eqn:Hkey;
        [| injection H as <- <-; left; eauto].
      rewrite bind_lift in H.
      destruct (CallData_compile (sessionCallArgs signerPubKey formatted signature))
        as [compiled | m] eqn:Hcompile;
        [| injection H as <- <-; left; eauto].
      cbv beta iota in H. unfold ret at 1 in H. cbv beta iota in H.
      unfold ret at 1 in H. cbv beta iota in H.
      rewrite bind_ret, bind_emit in H. unfold lift in H. injection H as <- <-.
      right.
      exists chain, nonceValue, fee, dappSignature, formatted, signature,
        signerPubKey, compiled.
      cbv zeta. fold (chosenDetails abiOrDetails transactionsDetail).
      split; [assumption |]. split; [assumption |].
      split; [right; split; assumption |].
      repeat (split; [first [assumption | reflexivity] |]).
      split; [simpl; rewrite !length_map; reflexivity |].
      split; reflexivity.
    + unfold ret at 1 in H. cbv beta iota in H.
      destruct (d_maxFee (chosenDetails abiOrDetails transactionsDetail))
        as [fee |] eqn:Hgiven; [| discriminate Hfalsy].
      rewrite bind_lift in H.
      match type of H with
      | context [signer_signTransaction ?sg ?cs ?dt ?ab] =>
          destruct (signer_signTransaction sg cs dt ab) as [dappSignature | m] eqn:Hsign
      end; [| injection H as <- <-; left; eauto].
      unfold OffchainSessionAccountV5.extendCallsBySession,
        OffchainSessionAccountV5.sessionToCall in H.
      rewrite bind_run, bind_run in H.
      rewrite bind_lift in H.
      destruct (formatSignature (OffchainSessionAccountV5.sessionSignature this))
        as [signature | m] eqn:Hsession;
        [| injection H as <- <-; left; eauto].
      rewrite bind_lift in H.
      destruct (formatSignature dappSignature) as [formatted | m] eqn:Hdapp;
        [| injection H as <- <-; left; eauto].
      rewrite bind_lift in H.
      destruct (getPubKey (signer (OffchainSessionAccountV5.base this)))
        as [signerPubKey | m] eqn:Hkey;
        [| injection H as <- <-; left; eauto].
      rewrite bind_lift in H.
      destruct (CallData_compile (sessionCallArgs signerPubKey formatted signature))
        as [compiled | m] eqn:Hcompile;
        [| injection H as <- <-; left; eauto].
      cbv beta iota in H. unfold ret at 1 in H. cbv beta iota in H.
      unfold ret at 1 in H. cbv beta iota in H.
      rewrite bind_ret, bind_emit in H. unfold lift in H. injection H as <- <-.
      right.
      exists chain, nonceValue, fee, dappSignature, formatted, signature,
        signerPubKey, compiled.
      cbv zeta. fold (chosenDetails abiOrDetails transactionsDetail).
      split; [assumption |]. split; [assumption |].
      split; [left; split; [rewrite Hgiven; exact Hfalsy | exact Hgiven] |].
      repeat (split; [first [assumption | reflexivity] |]).
      split; [simpl; rewrite !length_map; reflexivity |].
      split; reflexivity.
Qed.

End AccountProofs.

(** * The model on the test doubles *)

(** Scenario A of the specification: one allowed method, one matching
    call; one proof comes back and the signature starts with the magic. *)
Example scenario_A :
  getSessionProofs (lib := mockLib) (utils := mockUtils) test_sessionRequest [test_call]
    = Ok [[]]
  /\ hd_error test_signature = Some SESSION_MAGIC.
Proof. split; reflexivity. Qed.

(** Scenario B: a call outside the allowed methods; with a tree that
    rejects unknown leaves, as the doubles' tree does, the request fails
    after both signatures were obtained. *)
Example scenario_B :
  fst (signTransaction (lib := mockLib) (utils := mockUtils)
         test_dappService test_sessionAuthorizationSignature
         test_sessionRequest [test_otherCall] (test_details "0x2") false [])
  = Throw "leaf not found".
Proof. reflexivity. Qed.

(** ** Instances of the theorems *)

Section Instances.
#[local] Existing Instance mockLib.
#[local] Existing Instance mockUtils.

Lemma signTransaction_version_dispatch_witness :
  (getExecuteCalldata [test_call] (Some "1") = Ok ["0xabc"] /\
   includes ETransactionVersion2 "0x2" = true /\
   signTransaction test_dappService test_sessionAuthorizationSignature
     test_sessionRequest [test_call] (test_details "0x2") false []
   = compileSessionSignature test_dappService test_sessionAuthorizationSignature
       test_sessionRequest "0x22" [test_call] "0xacc" (test_details "0x2") false [])
  /\
  (includes ETransactionVersion3 "0x3" = true /\
   signTransaction test_dappService test_sessionAuthorizationSignature
     test_sessionRequest [test_call] test_detailsV3 false []
   = compileSessionSignature test_dappService test_sessionAuthorizationSignature
       test_sessionRequest "0x33" [test_call] "0xacc" test_detailsV3 false [])
  /\
  (includes ETransactionVersion2 "0x4" = false /\
   includes ETransactionVersion3 "0x4" = false /\
   signTransaction test_dappService test_sessionAuthorizationSignature
     test_sessionRequest [test_call] (test_details "0x4") false []
   = (Throw "unsupported signTransaction version", [])).
Proof.
  split; [| split].
  - split; [reflexivity |]. split; [reflexivity |].
    exact (proj1 (signTransaction_version_dispatch test_dappService
                    test_sessionAuthorizationSignature test_sessionRequest
                    [test_call] (test_details "0x2") false [] ["0xabc"] eq_refl)
             eq_refl).
  - split; [reflexivity |].
    exact (proj1 (proj2 (signTransaction_version_dispatch test_dappService
                           test_sessionAuthorizationSignature test_sessionRequest
                           [test_call] test_detailsV3 false [] ["0xabc"] eq_refl))
             eq_refl L1 L2 eq_refl eq_refl).
  - split; [reflexivity |]. split; [reflexivity |].
    exact (proj2 (proj2 (signTransaction_version_dispatch test_dappService
                           test_sessionAuthorizationSignature test_sessionRequest
                           [test_call] (test_details "0x4") false [] ["0xabc"]
                           eq_refl))
             eq_refl eq_refl).
Defined.

(** C2 as stated fails: the execute calldata is compiled before the
    version is looked at.  On the doubles, which like starknet.js cannot
    compile a call without calldata for a Cairo 1 account, a request of
    an unsupported version for such a call fails with the error of the
    calldata, not with the unsupported-version error. *)
Lemma unsupported_version_fails_in_calldata_first :
  includes ETransactionVersion2 (version (test_details "0x4")) = false /\
  includes ETransactionVersion3 (version (test_details "0x4")) = false /\
  signTransaction test_dappService test_sessionAuthorizationSignature
    test_sessionRequest [test_callWithoutCalldata] (test_details "0x4") false []
  = (Throw "TypeError: Cannot convert undefined or null to object", []) /\
  signTransaction test_dappService test_sessionAuthorizationSignature
    test_sessionRequest [test_callWithoutCalldata] (test_details "0x4") false []
  <> (Throw "unsupported signTransaction version", []).
Proof.
  split; [reflexivity |]. split; [reflexivity |]. split; [reflexivity |].
  intros H. vm_compute in H. discriminate H.
Qed.

Lemma signature_is_magic_then_token_witness :
  signTransaction test_dappService test_sessionAuthorizationSignature
    test_sessionRequest [test_call] (test_details "0x2") false []
  = (Ok test_signature, test_trace)
  /\
  (encodeShortString "session-token" = Ok "0x73657373696f6e2d746f6b656e" /\
   exists (rest : list string) (txHash : string)
          (guardian : BackendSignatureResponse) (callProofs : list (list string)),
     let sessionTypedData := getSessionTypedData test_sessionRequest (chainId test_dappService) in
     let signed :=
       computePoseidonHashOnElements
         [BNstring txHash;
          BNstring (getMessageHash sessionTypedData (walletAddress (test_details "0x2")));
          BNnumber (if false then 1 else 0)] in
     let signature := starkCurve_sign signed (privateKey (dappKey test_dappService)) in
     let tree :=
       MerkleTree_new (map allowedMethodLeaf (allowed_methods test_sessionRequest))
         computePoseidonHash in
     let bArray := byteArrayFromString (metadata test_sessionRequest) in
     let hexArray := fun l : list string => RArray (map (fun s => RFelt (BNstring s)) l) in
     test_signature = "0x73657373696f6e2d746f6b656e" :: rest /\
     argentBackend test_dappService
       {| rq_calls := [test_call];
          rq_invocationSignerDetails := (test_details "0x2");
          rq_sessionTypedData := sessionTypedData;
          rq_sessionSignature := [sig_r signature; sig_s signature];
          rq_cacheAuthorisation := false |} = Ok guardian /\
     map_result
       (fun call =>
          getProof tree (js_index (leaves tree) (allowedIndex test_sessionRequest call))
            (leaves tree))
       [test_call] = Ok callProofs /\
     CallData_compile
       (RObject
          [("session",
            RObject
              [("expires_at", RFelt (expires_at test_sessionRequest));
               ("allowed_methods_root", RFelt (BNstring (root tree)));
               ("metadata_hash",
                RFelt (BNstring
                         (computePoseidonHashOnElements
                            (BNnumber (Z.of_nat (List.length (data bArray)))
                             :: data bArray
                             ++ [pending_word bArray;
                                 BNnumber (pending_word_len bArray)])%list)));
               ("session_key_guid", RFelt (session_key_guid test_sessionRequest))]);
           ("cache_authorization", RBool false);
           ("session_authorization", hexArray test_sessionAuthorizationSignature);
           ("sessionSignature",
            signerTypeToCustomEnum SignerType_Starknet
              (RObject [("pubkey", RFelt (BNstring (publicKey (dappKey test_dappService))));
                        ("r", RFelt (BNbigint (sig_r signature)));
                        ("s", RFelt (BNbigint (sig_s signature)))]));
           ("guardianSignature",
            signerTypeToCustomEnum SignerType_Starknet
              (RObject [("pubkey", RFelt (BNstring (bs_publicKey guardian)));
                        ("r", RFelt (BNbigint (bs_r guardian)));
                        ("s", RFelt (BNbigint (bs_s guardian)))]));
           ("proofs", RArray (map hexArray callProofs))])
     = Ok rest).
Proof.
  split; [reflexivity |].
  apply (signature_is_magic_then_token test_dappService
           test_sessionAuthorizationSignature test_sessionRequest [test_call]
           (test_details "0x2") false [] test_trace test_signature).
  reflexivity.
Defined.

Lemma unmatched_call_proof_is_lookup_of_undefined_leaf_witness :
  (forall method, In method (allowed_methods test_sessionRequest) ->
     ~ (Contract_Address method = contractAddress test_otherCall /\
        selector method = entrypoint test_otherCall))
  /\
  (allowedIndex test_sessionRequest test_otherCall = -1 /\
   js_index (leaves (buildMerkleTree test_sessionRequest))
     (allowedIndex test_sessionRequest test_otherCall) = None /\
   getSessionProofs test_sessionRequest ([test_call] ++ test_otherCall :: []) =
     result_bind (getSessionProofs test_sessionRequest [test_call]) (fun proofsBefore =>
     result_bind (getProof (buildMerkleTree test_sessionRequest) None
                    (leaves (buildMerkleTree test_sessionRequest))) (fun proof =>
     result_bind (getSessionProofs test_sessionRequest []) (fun proofsAfter =>
     Ok (proofsBefore ++ proof :: proofsAfter)%list)))).
Proof.
  assert (Hnone : forall method, In method (allowed_methods test_sessionRequest) ->
            ~ (Contract_Address method = contractAddress test_otherCall /\
               selector method = entrypoint test_otherCall)).
  { intros method [<- | []] [Haddress _]. discriminate Haddress. }
  split; [exact Hnone |].
  exact (unmatched_call_proof_is_lookup_of_undefined_leaf test_sessionRequest
           [test_call] [] test_otherCall Hnone).
Defined.

Lemma root_and_proofs_share_one_tree_witness :
  signTransaction test_dappService test_sessionAuthorizationSignature
    test_sessionRequest [test_call] (test_details "0x2") false []
  = (Ok test_signature, test_trace)
  /\
  exists token rest,
    test_signature = SESSION_MAGIC :: rest /\
    CallData_compile (rawSessionToken token) = Ok rest /\
    allowed_methods_root (session token)
    = root (MerkleTree_new
              (map allowedMethodLeaf (allowed_methods test_sessionRequest))
              computePoseidonHash) /\
    map_result
      (fun call =>
         getProof
           (MerkleTree_new
              (map allowedMethodLeaf (allowed_methods test_sessionRequest))
              computePoseidonHash)
           (js_index
              (leaves (MerkleTree_new
                         (map allowedMethodLeaf (allowed_methods test_sessionRequest))
                         computePoseidonHash))
              (allowedIndex test_sessionRequest call))
           (leaves (MerkleTree_new
                      (map allowedMethodLeaf (allowed_methods test_sessionRequest))
                      computePoseidonHash)))
      [test_call]
    = Ok (proofs token).
Proof.
  split; [reflexivity |].
  apply (proj2 (proj2 (root_and_proofs_share_one_tree test_dappService
                         test_sessionRequest [test_call]))
           test_sessionAuthorizationSignature (test_details "0x2") false []
           test_trace test_signature).
  reflexivity.
Defined.

Lemma session_authorization_passes_through_witness :
  signTransaction test_dappService test_sessionAuthorizationSignature
    test_sessionRequest [test_call] (test_details "0x2") false []
  = (Ok test_signature, test_trace)
  /\
  exists token rest,
    test_signature = SESSION_MAGIC :: rest /\
    CallData_compile (rawSessionToken token) = Ok rest /\
    session_authorization token = test_sessionAuthorizationSignature /\
    In ("session_authorization",
        RArray (map (fun s => RFelt (BNstring s)) test_sessionAuthorizationSignature))
       match rawSessionToken token with
       | RObject fields => fields
       | _ => []
       end.
Proof.
  split; [reflexivity |].
  apply (proj2 (session_authorization_passes_through test_dappService
                  test_sessionAuthorizationSignature test_sessionRequest [test_call])
           (test_details "0x2") false [] test_trace test_signature).
  reflexivity.
Defined.

(** C10 as stated fails: on the doubles, the calldata of the session call
    that [extendCallsBySession] puts first has seven elements, the
    signer's public key before the six signature elements, so it is not
    the encoding of the six elements alone. *)
Lemma session_calldata_is_not_the_six_signature_elements :
  exists sessionCall,
    OffchainSessionAccount.extendCallsBySession test_account [test_call]
      test_dappSignature test_offchainSessionDetails []
    = (Ok [sessionCall; plainCall test_call], [])
    /\ calldata (osc_call sessionCall)
       = Some (Calldata ["9"; "1"; "2"; "3"; "4"; "5"; "6"])
    /\ ~ claimed_isSessionCall test_accountBase test_sessionSignature
           test_dappSignature (osc_call sessionCall).
Proof.
  eexists. split; [reflexivity |]. split; [reflexivity |].
  intros (_ & _ & formatted & signature & compiled & Hd & Hs & Hc & Hcall).
  vm_compute in Hd. injection Hd as <-.
  vm_compute in Hs. injection Hs as <-.
  vm_compute in Hc. injection Hc as <-.
  vm_compute in Hcall. discriminate Hcall.
Qed.

Lemma session_call_is_prepended_to_submitted_calls_witness :
  (OffchainSessionAccount.execute test_account test_batch None test_noDetails []
   = (Ok test_response, test_walletTrace)
   /\
   (
    (test_walletTrace = [] /\ exists m, Ok test_response = Throw m) \/
    exists (chain : string) (nonceValue fee : BigNumberish)
           (dappSignature : Signature) (formatted signature : list string)
           (signerPubKey : string) (compiled : list string),
      let base := OffchainSessionAccount.base test_account in
      let nonce := toHex nonceValue in
      let sessionCall :=
        {| contract_address := address base;
           wc_entrypoint := "use_offchain_session";
           wc_calldata := Some (Calldata compiled);
           wc_offchainSessionDetails :=
             Some {| osd_nonce := BNstring nonce;
                     osd_maxFee := BNstring (BigNumberish_toString fee);
                     osd_version := "0x1" |} |} in
      let submitted :=
        sessionCall
        :: map (fun call =>
                  {| contract_address := contractAddress call;
                     wc_entrypoint := entrypoint call;
                     wc_calldata := calldata call;
                     wc_offchainSessionDetails := None |})
             (ensureArray test_batch) in
      getChainId base = Ok chain /\
      match d_nonce test_noDetails with
      | Some n => Ok n
      | None => getNonce base
      end = Ok nonceValue /\
      estimateMaxFee base test_batch nonce [] = (Ok fee, []) /\
      signer_signTransaction (signer base) (ensureArray test_batch)
        {| walletAddress := account_address (OffchainSessionAccount.account test_account);
           cairoVersion := Some match this_cairoVersion base with
                                | Some v => v
                                | None => "1"
                                end;
           chainId_of := chain;
           nonce := BNstring nonce;
           version := "0x1";
           maxFee := Some fee;
           resourceBounds := None;
           tip := None;
           paymasterData := None;
           accountDeploymentData := None;
           nonceDataAvailabilityMode := None;
           feeDataAvailabilityMode := None |} None = Ok dappSignature /\
      formatSignature dappSignature = Ok formatted /\
      formatSignature (OffchainSessionAccount.sessionSignature test_account) = Ok signature /\
      getPubKey (signer base) = Ok signerPubKey /\
      CallData_compile
        (RObject [("signer", RFelt (BNstring signerPubKey));
                  ("token1", element formatted 0);
                  ("token2", element formatted 1);
                  ("token3", element signature 0);
                  ("token4", element signature 1);
                  ("token5", element signature 2);
                  ("token6", element signature 3)]) = Ok compiled /\
      List.length submitted = S (List.length (ensureArray test_batch)) /\
      test_walletTrace = ([] ++ [WalletRequested "starknet_addInvokeTransaction"
                      {| wp_calls := submitted |}])%list /\
      Ok test_response = request (OffchainSessionAccount.wallet test_account)
              "starknet_addInvokeTransaction" {| wp_calls := submitted |}))
  /\
  (OffchainSessionAccountV5.execute test_accountV5 test_batch None test_noDetails []
   = (Ok test_response, test_executeTrace)
   /\
   (
    (test_executeTrace = [] /\ exists m, Ok test_response = Throw m) \/
    exists (chain : string) (nonceValue fee : BigNumberish)
           (dappSignature : Signature) (formatted signature : list string)
           (signerPubKey : string) (compiled : list string),
      let base := OffchainSessionAccountV5.base test_accountV5 in
      let details :=
        match None with
        | Some (OffchainSessionAccountV5.Details given) => given
        | _ => test_noDetails
        end in
      let nonce := toHex nonceValue in
      let submitted :=
        {| osc_call := {| contractAddress := address base;
                          entrypoint := "use_offchain_session";
                          calldata := Some (Calldata compiled) |};
           offchainSessionDetails := None |}
        :: map (fun call => {| osc_call := call; offchainSessionDetails := None |})
             (ensureArray test_batch) in
      let executeDetails :=
        {| d_nonce := Some (BNstring nonce);
           d_maxFee := Some (BNstring (BigNumberish_toString fee));
           d_version := Some "0x1" |} in
      getChainId base = Ok chain /\
      match d_nonce details with
      | Some n => Ok n
      | None => getNonce base
      end = Ok nonceValue /\
      ((falsy (d_maxFee details) = false /\ d_maxFee details = Some fee) \/
       (falsy (d_maxFee details) = true /\
        estimateMaxFee base test_batch nonce [] = (Ok fee, []))) /\
      signer_signTransaction (signer base) (ensureArray test_batch)
        {| walletAddress := account_address (OffchainSessionAccountV5.account test_accountV5);
           cairoVersion := Some match this_cairoVersion base with
                                | Some v => v
                                | None => "1"
                                end;
           chainId_of := chain;
           nonce := BNstring nonce;
           version := "0x1";
           maxFee := Some fee;
           resourceBounds := None;
           tip := None;
           paymasterData := None;
           accountDeploymentData := None;
           nonceDataAvailabilityMode := None;
           feeDataAvailabilityMode := None |} None = Ok dappSignature /\
      formatSignature dappSignature = Ok formatted /\
      formatSignature (OffchainSessionAccountV5.sessionSignature test_accountV5) = Ok signature /\
      getPubKey (signer base) = Ok signerPubKey /\
      CallData_compile
        (RObject [("signer", RFelt (BNstring signerPubKey));
                  ("token1", element formatted 0);
                  ("token2", element formatted 1);
                  ("token3", element signature 0);
                  ("token4", element signature 1);
                  ("token5", element signature 2);
                  ("token6", element signature 3)]) = Ok compiled /\
      List.length submitted = S (List.length (ensureArray test_batch)) /\
      test_executeTrace = ([] ++ [AccountExecuted submitted executeDetails])%list /\
      Ok test_response = account_execute (OffchainSessionAccountV5.account test_accountV5) submitted
              executeDetails)).
Proof.
  split.
  - split; [reflexivity |].
    apply (proj1 (session_call_is_prepended_to_submitted_calls test_batch)
             test_account None test_noDetails [] (Ok test_response) test_walletTrace).
    reflexivity.
  - split; [reflexivity |].
    apply (proj2 (session_call_is_prepended_to_submitted_calls test_batch)
             test_accountV5 None test_noDetails [] (Ok test_response)
             test_executeTrace).
    reflexivity.
Defined.

End Instances.

(** * Further properties of the signing pipeline *)

Lemma findIndex_from_found {A : Type} (p : A -> bool) (l : list A) (i : Z) :
  (exists x, In x l /\ p x = true) ->
  exists (k : nat) (x : A),
    findIndex_from p l i = i + Z.of_nat k /\
    nth_error l k = Some x /\ p x = true /\
    forall (j : nat) (y : A), (j < k)%nat -> nth_error l j = Some y -> p y = false.
Proof.
  revert i. induction l as [| a l IH]; intros i (x & Hin & Hp).
  - destruct Hin.
  - simpl. destruct (p a) eqn:Hpa.
    + exists 0%nat, a. split; [lia |]. split; [reflexivity |]. split; [exact Hpa |].
      intros j y Hj. lia.
    + assert (Hex : exists x0, In x0 l /\ p x0 = true).
      { exists x. split; [| exact Hp].
        destruct Hin as [<- | Hin]; [congruence | exact Hin]. }
      destruct (IH (i + 1) Hex) as (k & z & Hidx & Hnth & Hpz & Hbefore).
      exists (S k), z. split; [rewrite Hidx; lia |].
      split; [exact Hnth |]. split; [exact Hpz |].
      intros [| j] y Hj Hy.
      * simpl in Hy. injection Hy as <-. exact Hpa.
      * simpl in Hy. apply (Hbefore j y); [lia | exact Hy].
Qed.

Lemma js_index_of_nat {A : Type} (l : list A) (k : nat) :
  js_index l (Z.of_nat k) = nth_error l k.
Proof.
  unfold js_index. destruct (Z.ltb_spec (Z.of_nat k) 0); [lia |].
  rewrite Nat2Z.id. reflexivity.
Qed.

Lemma map_result_Forall2 {A B : Type} (f : A -> Result B) (l : list A) (ys : list B) :
  map_result f l = Ok ys <-> Forall2 (fun x y => f x = Ok y) l ys.
Proof.
  revert ys. induction l as [| x l IH]; intros ys; simpl.
  - split.
    + intros H. injection H as <-. constructor.
    + intros H. inversion H. reflexivity.
  - split.
    + intros H. destruct (f x) as [y | m] eqn:Hx; simpl in H; [| discriminate H].
      destruct (map_result f l) as [rest | m] eqn:Hl; simpl in H; [| discriminate H].
      injection H as <-. constructor; [exact Hx |]. apply IH. reflexivity.
    + intros H. inversion H as [| x0 y l0 rest Hx Hrest]; subst.
      rewrite Hx. simpl. apply IH in Hrest. rewrite Hrest. reflexivity.
Qed.

Lemma map_result_Throw {A B : Type} (f : A -> Result B) (l : list A) (m : string) :
  map_result f l = Throw m ->
  exists before x after ys,
    l = (before ++ x :: after)%list /\
    map_result f before = Ok ys /\ f x = Throw m.
Proof.
  induction l as [| x l IH]; simpl; intros H.
  - discriminate H.
  - destruct (f x) as [y | m0] eqn:Hx; simpl in H.
    + destruct (map_result f l) as [rest | m1] eqn:Hl; simpl in H; [discriminate H |].
      injection H as ->.
      destruct (IH eq_refl) as (before & z & after & ys & -> & Hbefore & Hz).
      exists (x :: before), z, after, (y :: ys).
      split; [reflexivity |]. split; [| exact Hz].
      simpl. rewrite Hx. simpl. rewrite Hbefore. reflexivity.
    + injection H as ->. exists [], x, l, []. repeat split. exact Hx.
Qed.

Section PipelineProofs.
Context {lib : StarknetJs} {utils : SessionUtils}.

(** The whole course of [compileSessionSignature]: the session key signs,
    the backend is asked, and only then are the token built and encoded;
    each later step can still fail. *)
Lemma compileSessionSignature_run
    (this : DappService) (authorization : list string)
    (sessionRequest : OffChainSession) (transactionHash : string)
    (calls : list Call) (accountAddress : string)
    (d : InvocationsSignerDetails) (cache : bool) (tr : list SignEvent) :
  let sessionTypedData := getSessionTypedData sessionRequest (chainId this) in
  let signed :=
    computePoseidonHashOnElements
      [BNstring transactionHash;
       BNstring (getMessageHash sessionTypedData accountAddress);
       BNnumber (if cache then 1 else 0)] in
  let signature := starkCurve_sign signed (privateKey (dappKey this)) in
  let sessionSig := [sig_r signature; sig_s signature] in
  let request :=
    {| rq_calls := calls;
       rq_invocationSignerDetails := d;
       rq_sessionTypedData := sessionTypedData;
       rq_sessionSignature := sessionSig;
       rq_cacheAuthorisation := cache |} in
  let tr2 := (tr ++ [Signed signed (privateKey (dappKey this));
                     BackendAsked request])%list in
  compileSessionSignature this authorization sessionRequest transactionHash
    calls accountAddress d cache tr
  = match argentBackend this request with
    | Throw m => (Throw m, tr2)
    | Ok guardian =>
        match compileSessionTokenHelper this (compileSessionHelper sessionRequest)
                sessionRequest calls sessionSig authorization guardian cache with
        | Throw m => (Throw m, tr2)
        | Ok token =>
            match CallData_compile (rawSessionToken token) with
            | Throw m => (Throw m, tr2)
            | Ok rest => (Ok (SESSION_MAGIC :: rest), tr2)
            end
        end
    end.
Proof.
  cbv zeta.
  unfold compileSessionSignature, signTxAndSession, sign, askBackend,
    sessionWithTxHash, unary_plus.
  rewrite !bind_run. simpl. rewrite !bind_run. simpl.
  rewrite <- app_assoc. simpl.
  match goal with
  | |- context [argentBackend this ?r] => destruct (argentBackend this r) as [guardian | m]
  end; simpl; [| reflexivity].
  rewrite !bind_lift.
  match goal with
  | |- context [compileSessionTokenHelper ?a ?b ?c ?e ?f ?g ?h ?i] =>
      destruct (compileSessionTokenHelper a b c e f g h i) as [token | m]
  end; [| reflexivity].
  rewrite bind_lift.
  destruct (CallData_compile (rawSessionToken token)); reflexivity.
Qed.

(** [signTransaction] either fails before anything is signed, or is
    [compileSessionSignature] on the transaction hash of the compiled
    calldata, of the sort the version of the details selects. *)
Lemma signTransaction_cases
    (this : DappService) (authorization : list string)
    (sessionRequest : OffChainSession) (calls : list Call)
    (d : InvocationsSignerDetails) (cache : bool) (tr : list SignEvent) :
  (exists m, signTransaction this authorization sessionRequest calls d cache tr
             = (Throw m, tr))
  \/
  exists compiledCalldata txHash,
    getExecuteCalldata calls (cairoVersion d) = Ok compiledCalldata /\
    ((includes ETransactionVersion2 (version d) = true /\
      calculateInvokeTransactionHash (v2HashArgs d compiledCalldata) = Ok txHash)
     \/
     exists nonceDAM feeDAM,
       includes ETransactionVersion3 (version d) = true /\
       intDAM (nonceDataAvailabilityMode d) = Ok nonceDAM /\
       intDAM (feeDataAvailabilityMode d) = Ok feeDAM /\
       calculateInvokeTransactionHash
         (v3HashArgs d compiledCalldata nonceDAM feeDAM) = Ok txHash) /\
    signTransaction this authorization sessionRequest calls d cache tr
    = compileSessionSignature this authorization sessionRequest txHash calls
        (walletAddress d) d cache tr.
Proof.
  unfold signTransaction. rewrite bind_lift.
  destruct (getExecuteCalldata calls (cairoVersion d)) as [compiledCalldata | m];
    [| left; exists m; reflexivity].
  destruct (includes ETransactionVersion2 (version d)) eqn:H2.
  - rewrite bind_lift.
    destruct (calculateInvokeTransactionHash (v2HashArgs d compiledCalldata))
      as [txHash | m] eqn:Hhash; [| left; exists m; reflexivity].
    right. exists compiledCalldata, txHash.
    split; [reflexivity |].
    split; [left; split; [reflexivity | exact Hhash] | reflexivity].
  - destruct (includes ETransactionVersion3 (version d)) eqn:H3.
    + destruct (intDAM (nonceDataAvailabilityMode d)) as [n | m] eqn:Hn;
        [| left; exists m; reflexivity].
      destruct (intDAM (feeDataAvailabilityMode d)) as [f | m] eqn:Hf;
        [| left; exists m; reflexivity].
      destruct (calculateInvokeTransactionHash (v3HashArgs d compiledCalldata n f))
        as [txHash | m] eqn:Hhash;
        [| left; exists m; unfold bind, lift; cbv beta iota; rewrite Hhash;
           reflexivity].
      right. exists compiledCalldata, txHash.
      split; [reflexivity |].
      split; [right; exists n, f; auto |].
      unfold bind, lift. cbv beta iota. rewrite Hhash. reflexivity.
    + left. eexists. reflexivity.
Qed.

(** X1.  Whatever the inputs and whatever the collaborators answer, a
    signing request either throws before any collaborator is called, or
    calls exactly two of them in this order: the signing primitive, on
    the combined hash of the transaction hash with the wallet address and
    the service's chain id, and then the backend, with the calls, the
    details, the flag and that very signature.  The transaction hash is
    that of the compiled calldata of the batch: the V2 hash when the
    version of the details is a V2 one, the V3 hash with the codes of the
    two data-availability modes when it is a V3 one. *)
Theorem signTransaction_signs_then_asks_backend
    (this : DappService) (authorization : list string)
    (sessionRequest : OffChainSession) (calls : list Call)
    (d : InvocationsSignerDetails) (cache : bool)
    (tr tr' : list SignEvent) (r : Result (list string)) :
  signTransaction this authorization sessionRequest calls d cache tr = (r, tr') ->
  (tr' = tr /\ exists m, r = Throw m)
  \/
  exists compiledCalldata txHash,
    getExecuteCalldata calls (cairoVersion d) = Ok compiledCalldata /\
    ((includes ETransactionVersion2 (version d) = true /\
      calculateInvokeTransactionHash (v2HashArgs d compiledCalldata) = Ok txHash)
     \/
     exists nonceDAM feeDAM,
       includes ETransactionVersion3 (version d) = true /\
       intDAM (nonceDataAvailabilityMode d) = Ok nonceDAM /\
       intDAM (feeDataAvailabilityMode d) = Ok feeDAM /\
       calculateInvokeTransactionHash
         (v3HashArgs d compiledCalldata nonceDAM feeDAM) = Ok txHash) /\
    tr' = (tr ++ signingEvents this sessionRequest txHash calls (walletAddress d)
                   d cache)%list.
Proof.
  intros H.
  destruct (signTransaction_cases this authorization sessionRequest calls d cache tr)
    as [(m & Hm) | (compiledCalldata & txHash & Hcalldata & Hhash & Hrun)].
  - left. rewrite Hm in H. injection H as <- <-. split; [reflexivity | eauto].
  - right. exists compiledCalldata, txHash.
    split; [exact Hcalldata |]. split; [exact Hhash |].
    rewrite Hrun, compileSessionSignature_run in H. cbv zeta in H.
    unfold signingEvents, backendRequestOf, sessionSignatureOf.
    repeat match type of H with
           | match ?x with _ => _ end = _ => destruct x
           end; injection H as _ <-; reflexivity.
Qed.




(** X5.  Once the calldata of the batch has been compiled, a V3 request
    that lacks the nonce or the fee data-availability mode fails with
    "EDAM conversion" before anything is signed or sent to the backend. *)
Theorem v3_request_without_mode_fails_early
    (this : DappService) (authorization : list string)
    (sessionRequest : OffChainSession) (calls : list Call)
    (d : InvocationsSignerDetails) (cache : bool) (tr : list SignEvent)
    (compiledCalldata : list string) :
  getExecuteCalldata calls (cairoVersion d) = Ok compiledCalldata ->
  includes ETransactionVersion3 (version d) = true ->
  nonceDataAvailabilityMode d = None \/ feeDataAvailabilityMode d = None ->
  signTransaction this authorization sessionRequest calls d cache tr
  = (Throw "EDAM conversion", tr).
Proof.
  intros Hcalldata H3 Hmissing. unfold signTransaction.
  rewrite bind_lift, Hcalldata.
  rewrite (version3_not_version2 _ H3), H3.
  destruct Hmissing as [Hn | Hf].
  - rewrite Hn. reflexivity.
  - rewrite Hf. destruct (nonceDataAvailabilityMode d) as [[|] |]; reflexivity.
Qed.

(** X6.  For a session that allows at least one method,
    [getSessionProofs] succeeds exactly when the tree proves the leaf
    looked up for every call, and then it returns one proof per call, in
    the order of the calls. *)
Theorem getSessionProofs_one_proof_per_call
    (sessionRequest : OffChainSession) (calls : list Call)
    (callProofs : list (list string)) :
  allowed_methods sessionRequest <> [] ->
  let tree := buildMerkleTree sessionRequest in
  getSessionProofs sessionRequest calls = Ok callProofs
  <->
  Forall2
    (fun call proof =>
       getProof tree (js_index (leaves tree) (allowedIndex sessionRequest call))
         (leaves tree) = Ok proof)
    calls callProofs.
Proof. intros _. cbv zeta. unfold getSessionProofs. apply map_result_Forall2. Qed.

(** X7.  For a session that allows at least one method: when
    [getSessionProofs] throws, the message is that of the first call, in
    the order of the batch, for which the tree gives no proof; the calls
    before it all had one. *)
Theorem getSessionProofs_fails_at_first_unproved_call
    (sessionRequest : OffChainSession) (calls : list Call) (m : string) :
  allowed_methods sessionRequest <> [] ->
  getSessionProofs sessionRequest calls = Throw m ->
  let tree := buildMerkleTree sessionRequest in
  exists before call after proofsBefore,
    calls = (before ++ call :: after)%list /\
    getSessionProofs sessionRequest before = Ok proofsBefore /\
    getProof tree (js_index (leaves tree) (allowedIndex sessionRequest call))
      (leaves tree) = Throw m.
Proof.
  intros _ H. cbv zeta. unfold getSessionProofs in *.
  apply map_result_Throw in H.
  destruct H as (before & call & after & ys & -> & Hbefore & Hcall).
  exists before, call, after, ys. auto.
Qed.

(** X8.  For a call that agrees with some allowed method, the index
    searched by [getSessionProofs] is the position of the first allowed
    method that agrees with it: it lies within the list, the method there
    agrees with the call, and none before it does. *)
Theorem allowedIndex_is_first_match
    (sessionRequest : OffChainSession) (call : Call) :
  (exists method, In method (allowed_methods sessionRequest) /\
                  callMatches method call) ->
  exists (i : nat) (method : AllowedMethod),
    allowedIndex sessionRequest call = Z.of_nat i /\
    nth_error (allowed_methods sessionRequest) i = Some method /\
    callMatches method call /\
    forall (j : nat) (other : AllowedMethod),
      (j < i)%nat ->
      nth_error (allowed_methods sessionRequest) j = Some other ->
      ~ callMatches other call.
Proof.
  intros (method & Hin & Ha & Hs).
  unfold allowedIndex, findIndex.
  match goal with
  | |- context [findIndex_from ?p _ _] =>
      destruct (findIndex_from_found p (allowed_methods sessionRequest) 0)
        as (i & found & Hidx & Hnth & Hp & Hbefore)
  end.
  { exists method. split; [exact Hin |].
    rewrite Ha, Hs, !String.eqb_refl. reflexivity. }
  exists i, found. split; [rewrite Hidx; lia |]. split; [exact Hnth |].
  apply andb_prop in Hp. destruct Hp as [Hpa Hps].
  apply String.eqb_eq in Hpa. apply String.eqb_eq in Hps.
  split; [split; assumption |].
  intros j other Hj Hother [Hoa Hos].
  specialize (Hbefore j other Hj Hother).
  rewrite Hoa, Hos, !String.eqb_refl in Hbefore. discriminate Hbefore.
Qed.

(** X9.  With a tree that keeps the leaves it was built from, in their
    order, the leaf whose proof is asked for a call that agrees with an
    allowed method is the leaf of the first such method: the Poseidon
    hash of the domain tag, its contract address and the selector of its
    name. *)
Theorem proof_is_asked_for_leaf_of_first_match
    (sessionRequest : OffChainSession) (call : Call) :
  (forall leafHashes hashMethod,
     leaves (MerkleTree_new leafHashes hashMethod) = leafHashes) ->
  (exists method, In method (allowed_methods sessionRequest) /\
                  callMatches method call) ->
  exists (i : nat) (method : AllowedMethod),
    nth_error (allowed_methods sessionRequest) i = Some method /\
    callMatches method call /\
    (forall (j : nat) (other : AllowedMethod),
       (j < i)%nat ->
       nth_error (allowed_methods sessionRequest) j = Some other ->
       ~ callMatches other call) /\
    js_index (leaves (buildMerkleTree sessionRequest))
      (allowedIndex sessionRequest call)
    = Some (computePoseidonHashOnElements
              [BNstring ALLOWED_METHOD_HASH;
               BNstring (Contract_Address method);
               BNstring (getSelectorFromName (selector method))]).
Proof.
  intros Hleaves (method & Hin & Ha & Hs).
  unfold allowedIndex, findIndex.
  match goal with
  | |- context [findIndex_from ?p _ _] =>
      destruct (findIndex_from_found p (allowed_methods sessionRequest) 0)
        as (i & found & Hidx & Hnth & Hp & Hbefore)
  end.
  { exists method. split; [exact Hin |].
    rewrite Ha, Hs, !String.eqb_refl. reflexivity. }
  exists i, found. split; [exact Hnth |].
  apply andb_prop in Hp. destruct Hp as [Hpa Hps].
  apply String.eqb_eq in Hpa. apply String.eqb_eq in Hps.
  split; [split; assumption |]. split.
  - intros j other Hj Hother [Hoa Hos].
    specialize (Hbefore j other Hj Hother).
    rewrite Hoa, Hos, !String.eqb_refl in Hbefore. discriminate Hbefore.
  - rewrite Hidx. change (0 + Z.of_nat i) with (Z.of_nat i).
    rewrite js_index_of_nat. unfold buildMerkleTree. rewrite Hleaves.
    rewrite nth_error_map, Hnth. reflexivity.
Qed.

End PipelineProofs.

(** * Further properties of the offchain session accounts *)

Section AccountPipelineProofs.
Context {lib : StarknetJs} {utils : SessionUtils}.

Lemma nonce_step_run (base : AccountBase) (details : InvocationsDetails)
    (tr : list SubmitEvent) :
  match d_nonce details with
  | Some n => ret n
  | None => lift (getNonce base)
  end tr = (nonceSource base details, tr).
Proof. unfold nonceSource. destruct (d_nonce details); reflexivity. Qed.

(** X12.  [OffchainSessionAccount.execute] reads nothing but the nonce
    from the transaction details it is given: the caller's [maxFee] and
    [version] have no influence on what is signed or submitted. *)
Theorem execute_reads_only_the_nonce_of_its_details
    (this : OffchainSessionAccount.t) (calls : CallOrCalls)
    (abis : option (list Abi)) (details1 details2 : InvocationsDetails)
    (tr : list SubmitEvent) :
  d_nonce details1 = d_nonce details2 ->
  OffchainSessionAccount.execute this calls abis details1 tr
  = OffchainSessionAccount.execute this calls abis details2 tr.
Proof.
  intros Hnonce. unfold OffchainSessionAccount.execute.
  rewrite Hnonce. reflexivity.
Qed.

(** X13.  The fee both classes settle on comes from the simulation when
    that returns at least one result: its suggested fee, or the overall
    fee of its estimate when there is no suggestion.  When the simulation
    throws or returns no result, the provider's suggested fee is used and
    the simulation's error is never reported: a failure is that of the
    provider's estimate. *)
Theorem estimateMaxFee_falls_back_to_suggested_fee
    (base : AccountBase) (calls : CallOrCalls) (nonce : string)
    (tr : list SubmitEvent) :
  (forall estimation others,
     simulateTransaction base calls nonce = Ok (estimation :: others) ->
     estimateMaxFee base calls nonce tr
     = (Ok match sim_suggestedMaxFee estimation with
           | Some fee => BNbigint fee
           | None => overall_fee (fee_estimation estimation)
           end, tr))
  /\
  (simulateTransaction base calls nonce = Ok [] \/
   (exists m, simulateTransaction base calls nonce = Throw m) ->
   estimateMaxFee base calls nonce tr
   = (match getSuggestedFee base calls nonce with
      | Ok fee => Ok (BNbigint (suggestedMaxFee fee))
      | Throw m => Throw m
      end, tr)).
Proof.
  unfold estimateMaxFee, try_catch. split.
  - intros estimation others Hsim. rewrite bind_lift, Hsim. reflexivity.
  - intros [Hsim | (m & Hsim)]; rewrite bind_lift, Hsim.
    + unfold throw. rewrite bind_lift.
      destruct (getSuggestedFee base calls nonce); reflexivity.
    + rewrite bind_lift.
      destruct (getSuggestedFee base calls nonce); reflexivity.
Qed.

(** X14.  When its collaborators answer, [OffchainSessionAccount.execute]
    asks the wallet once and returns the wallet's answer.  The dapp
    signature is the signer's for the batch under the wallet account's
    address, version "0x1", the hex nonce and the estimated fee; the
    session call submitted carries that same nonce and fee as its session
    details, and the calls of the batch follow it without details. *)
Theorem execute_submits_when_collaborators_answer
    (this : OffchainSessionAccount.t) (calls : CallOrCalls)
    (abis : option (list Abi)) (details : InvocationsDetails)
    (tr : list SubmitEvent)
    (chain : string) (nonceValue fee : BigNumberish) (dappSignature : Signature)
    (signature formatted : list string) (signerPubKey : string)
    (compiled : list string) :
  let base := OffchainSessionAccount.base this in
  let nonce := toHex nonceValue in
  let sessionCall :=
    sessionCallOf base compiled
      (Some {| osd_nonce := BNstring nonce;
               osd_maxFee := BNstring (BigNumberish_toString fee);
               osd_version := "0x1" |}) in
  let params :=
    {| wp_calls := map OffchainSessionAccount.walletCall
                     (sessionCall :: map plainCall (ensureArray calls)) |} in
  getChainId base = Ok chain ->
  nonceSource base details = Ok nonceValue ->
  estimateMaxFee base calls nonce tr = (Ok fee, tr) ->
  signer_signTransaction (signer base) (ensureArray calls)
    (sessionSignerDetails (OffchainSessionAccount.account this) base chain nonce
       (Some fee)) abis = Ok dappSignature ->
  formatSignature (OffchainSessionAccount.sessionSignature this) = Ok signature ->
  formatSignature dappSignature = Ok formatted ->
  getPubKey (signer base) = Ok signerPubKey ->
  CallData_compile (sessionCallArgs signerPubKey formatted signature) = Ok compiled ->
  OffchainSessionAccount.execute this calls abis details tr
  = (request (OffchainSessionAccount.wallet this) "starknet_addInvokeTransaction"
       params,
     (tr ++ [WalletRequested "starknet_addInvokeTransaction" params])%list).
Proof.
  cbv zeta. intros Hchain Hnonce Hfee Hsign Hsession Hdapp Hkey Hcompile.
  unfold OffchainSessionAccount.execute.
  rewrite bind_lift, Hchain.
  rewrite bind_run, nonce_step_run, Hnonce.
  rewrite bind_run, Hfee.
  unfold sessionSignerDetails in Hsign. rewrite bind_lift, Hsign. cbv beta iota.
  unfold OffchainSessionAccount.extendCallsBySession,
    OffchainSessionAccount.sessionToCall.
  rewrite bind_run, bind_run.
  rewrite bind_lift, Hsession. cbv beta iota.
  rewrite bind_lift, Hdapp. cbv beta iota.
  rewrite bind_lift, Hkey. cbv beta iota.
  rewrite bind_lift, Hcompile. cbv beta iota.
  reflexivity.
Qed.

(** X15.  [OffchainSessionAccountV5.execute] keeps a fee given by the
    caller and estimates one only when the caller's is absent or falsy
    (zero or empty); the details it reads are its second argument when
    that is a details object and its third otherwise.  When its
    collaborators answer, it hands the session call followed by the batch
    to the wallet account once, together with the nonce and the version
    "0x1" that were signed and with [fee.toString()] for the fee, and
    returns the account's answer.  That string is the fee itself when it
    is a string, and its decimal digits when it is a bigint or a number
    within the safe integers; for a number beyond them it is what the
    runtime prints, which need not denote the fee that was signed. *)
Theorem executeV5_hands_over_session_call_and_details
    (this : OffchainSessionAccountV5.t) (calls : CallOrCalls)
    (abiOrDetails : option OffchainSessionAccountV5.AbiOrDetails)
    (transactionsDetail : InvocationsDetails) (tr : list SubmitEvent)
    (chain : string) (nonceValue fee : BigNumberish) (dappSignature : Signature)
    (signature formatted : list string) (signerPubKey : string)
    (compiled : list string) :
  let base := OffchainSessionAccountV5.base this in
  let details := chosenDetails abiOrDetails transactionsDetail in
  let nonce := toHex nonceValue in
  let submitted :=
    sessionCallOf base compiled None :: map plainCall (ensureArray calls) in
  let executeDetails :=
    {| d_nonce := Some (BNstring nonce);
       d_maxFee :=
         Some (BNstring
                 match fee with
                 | BNstring s => s
                 | BNbigint n => Z_toString n
                 | BNnumber n =>
                     if Z.abs n <=? 2 ^ 53 - 1 then Z_toString n
                     else Number_toString_beyond_safe n
                 end);
       d_version := Some "0x1" |} in
  getChainId base = Ok chain ->
  nonceSource base details = Ok nonceValue ->
  (falsy (d_maxFee details) = false /\ d_maxFee details = Some fee) \/
  (falsy (d_maxFee details) = true /\
   estimateMaxFee base calls nonce tr = (Ok fee, tr)) ->
  signer_signTransaction (signer base) (ensureArray calls)
    (sessionSignerDetails (OffchainSessionAccountV5.account this) base chain nonce
       (Some fee)) None = Ok dappSignature ->
  formatSignature (OffchainSessionAccountV5.sessionSignature this) = Ok signature ->
  formatSignature dappSignature = Ok formatted ->
  getPubKey (signer base) = Ok signerPubKey ->
  CallData_compile (sessionCallArgs signerPubKey formatted signature) = Ok compiled ->
  OffchainSessionAccountV5.execute this calls abiOrDetails transactionsDetail tr
  = (account_execute (OffchainSessionAccountV5.account this) submitted
       executeDetails,
     (tr ++ [AccountExecuted submitted executeDetails])%list).
Proof.
  cbv zeta. intros Hchain Hnonce Hfee Hsign Hsession Hdapp Hkey Hcompile.
  unfold OffchainSessionAccountV5.execute.
  rewrite bind_lift, Hchain.
  change (match abiOrDetails with
          | Some (OffchainSessionAccountV5.Abis _) => transactionsDetail
          | Some (OffchainSessionAccountV5.Details d) => d
          | None => transactionsDetail
          end) with (chosenDetails abiOrDetails transactionsDetail).
  rewrite bind_run, nonce_step_run, Hnonce.
  assert (Hstep :
    (if falsy (d_maxFee (chosenDetails abiOrDetails transactionsDetail))
     then bind (estimateMaxFee (OffchainSessionAccountV5.base this) calls
                  (toHex nonceValue)) (fun fee0 => ret (Some fee0))
     else ret (d_maxFee (chosenDetails abiOrDetails transactionsDetail))) tr
    = (Ok (Some fee), tr)).
  { destruct Hfee as [[Hfalsy Hgiven] | [Hfalsy Hestimate]]; rewrite Hfalsy.
    - rewrite Hgiven. reflexivity.
    - rewrite bind_run, Hestimate. reflexivity. }
  rewrite bind_run, Hstep.
  unfold sessionSignerDetails in Hsign. rewrite bind_lift, Hsign. cbv beta iota.
  unfold OffchainSessionAccountV5.extendCallsBySession,
    OffchainSessionAccountV5.sessionToCall.
  rewrite bind_run, bind_run.
  rewrite bind_lift, Hsession. cbv beta iota.
  rewrite bind_lift, Hdapp. cbv beta iota.
  rewrite bind_lift, Hkey. cbv beta iota.
  rewrite bind_lift, Hcompile. cbv beta iota.
  destruct fee; reflexivity.
Qed.

(** X16.  The object compiled into the calldata of the session call has
    no [undefined] property exactly when the formatted dapp signature has
    at least two elements and the formatted session signature at least
    four (owner and cosigner halves); a shorter signature leaves a token
    undefined. *)
Theorem sessionCallArgs_defined_iff_signatures_long_enough
    (signerPubKey : string) (formattedDappSignature signature : list string) :
  hasUndefinedProperty
    (sessionCallArgs signerPubKey formattedDappSignature signature) = false
  <->
  (2 <= List.length formattedDappSignature)%nat /\
  (4 <= List.length signature)%nat.
Proof.
  destruct formattedDappSignature as [| d0 [| d1 dapp]];
    destruct signature as [| s0 [| s1 [| s2 [| s3 rest]]]];
    simpl; split; try discriminate; try (intros [H2 H4]; lia);
    intros _; split; lia.
Qed.

(** X17.  The two account classes build the same session call: given the
    same account and stored session signature, [sessionToCall] of both
    fails with the same message or returns calls with the same target,
    entrypoint and calldata; only the V5 one leaves the session details
    out. *)
Theorem both_classes_build_the_same_session_call
    (this : OffchainSessionAccount.t) (thisV5 : OffchainSessionAccountV5.t)
    (dappSignature : Signature) (details : OffchainSessionDetails)
    (tr : list SubmitEvent) :
  OffchainSessionAccount.base this = OffchainSessionAccountV5.base thisV5 ->
  OffchainSessionAccount.sessionSignature this
  = OffchainSessionAccountV5.sessionSignature thisV5 ->
  match fst (OffchainSessionAccount.sessionToCall this dappSignature details tr),
        fst (OffchainSessionAccountV5.sessionToCall thisV5 dappSignature tr) with
  | Ok sessionCall, Ok sessionCallV5 =>
      osc_call sessionCall = osc_call sessionCallV5 /\
      offchainSessionDetails sessionCall = Some details /\
      offchainSessionDetails sessionCallV5 = None
  | Throw m, Throw mV5 => m = mV5
  | _, _ => False
  end.
Proof.
  intros Hbase Hsession.
  unfold OffchainSessionAccount.sessionToCall, OffchainSessionAccountV5.sessionToCall.
  rewrite Hbase, Hsession. rewrite !bind_lift.
  destruct (formatSignature (OffchainSessionAccountV5.sessionSignature thisV5));
    [| reflexivity].
  rewrite !bind_lift.
  destruct (formatSignature dappSignature); [| reflexivity].
  rewrite !bind_lift.
  destruct (getPubKey (signer (OffchainSessionAccountV5.base thisV5)));
    [| reflexivity].
  rewrite !bind_lift.
  destruct (CallData_compile _); [| reflexivity].
  simpl. auto.
Qed.

End AccountPipelineProofs.

(** ** Instances of the further properties *)

Section PipelineInstances.
#[local] Existing Instance mockLib.
#[local] Existing Instance mockUtils.

Lemma test_sessionRequest_allows_a_method :
  allowed_methods test_sessionRequest <> [].
Proof. discriminate. Defined.

Lemma signTransaction_signs_then_asks_backend_witness :
  signTransaction test_dappService test_sessionAuthorizationSignature
    test_sessionRequest [test_call] (test_details "0x2") false []
  = (Ok test_signature, test_trace)
  /\
  ((test_trace = [] /\ exists m, Ok test_signature = Throw m)
   \/
   exists compiledCalldata txHash,
     getExecuteCalldata [test_call] (cairoVersion (test_details "0x2"))
     = Ok compiledCalldata /\
     ((includes ETransactionVersion2 (version (test_details "0x2")) = true /\
       calculateInvokeTransactionHash
         (v2HashArgs (test_details "0x2") compiledCalldata) = Ok txHash)
      \/
      exists nonceDAM feeDAM,
        includes ETransactionVersion3 (version (test_details "0x2")) = true /\
        intDAM (nonceDataAvailabilityMode (test_details "0x2")) = Ok nonceDAM /\
        intDAM (feeDataAvailabilityMode (test_details "0x2")) = Ok feeDAM /\
        calculateInvokeTransactionHash
          (v3HashArgs (test_details "0x2") compiledCalldata nonceDAM feeDAM)
        = Ok txHash) /\
     test_trace
     = ([] ++ signingEvents test_dappService test_sessionRequest txHash [test_call]
                "0xacc" (test_details "0x2") false)%list).
Proof.
  split; [reflexivity |].
  exact (signTransaction_signs_then_asks_backend test_dappService
           test_sessionAuthorizationSignature test_sessionRequest [test_call]
           (test_details "0x2") false [] test_trace (Ok test_signature) eq_refl).
Defined.




Lemma v3_request_without_mode_fails_early_witness :
  (getExecuteCalldata [test_call] (cairoVersion test_detailsWithoutModes)
   = Ok ["0xabc"] /\
   includes ETransactionVersion3 (version test_detailsWithoutModes) = true /\
   feeDataAvailabilityMode test_detailsWithoutModes = None)
  /\
  signTransaction test_dappService test_sessionAuthorizationSignature
    test_sessionRequest [test_call] test_detailsWithoutModes false []
  = (Throw "EDAM conversion", []).
Proof.
  split; [repeat split |].
  exact (v3_request_without_mode_fails_early test_dappService
           test_sessionAuthorizationSignature test_sessionRequest [test_call]
           test_detailsWithoutModes false [] ["0xabc"] eq_refl eq_refl
           (or_intror eq_refl)).
Defined.

Lemma getSessionProofs_one_proof_per_call_witness :
  (allowed_methods test_sessionRequest <> [] /\
   getSessionProofs test_sessionRequest [test_call] = Ok [[]])
  /\
  Forall2
    (fun call proof =>
       getProof (buildMerkleTree test_sessionRequest)
         (js_index (leaves (buildMerkleTree test_sessionRequest))
            (allowedIndex test_sessionRequest call))
         (leaves (buildMerkleTree test_sessionRequest)) = Ok proof)
    [test_call] [[]].
Proof.
  split; [split; [exact test_sessionRequest_allows_a_method | reflexivity] |].
  exact (proj1 (getSessionProofs_one_proof_per_call test_sessionRequest
                  [test_call] [[]] test_sessionRequest_allows_a_method) eq_refl).
Defined.

Lemma getSessionProofs_fails_at_first_unproved_call_witness :
  (allowed_methods test_sessionRequest <> [] /\
   getSessionProofs test_sessionRequest [test_call; test_otherCall; test_call]
   = Throw "leaf not found")
  /\
  exists before call after proofsBefore,
    [test_call; test_otherCall; test_call] = (before ++ call :: after)%list /\
    getSessionProofs test_sessionRequest before = Ok proofsBefore /\
    getProof (buildMerkleTree test_sessionRequest)
      (js_index (leaves (buildMerkleTree test_sessionRequest))
         (allowedIndex test_sessionRequest call))
      (leaves (buildMerkleTree test_sessionRequest)) = Throw "leaf not found".
Proof.
  split; [split; [exact test_sessionRequest_allows_a_method | reflexivity] |].
  exact (getSessionProofs_fails_at_first_unproved_call test_sessionRequest
           [test_call; test_otherCall; test_call] "leaf not found"
           test_sessionRequest_allows_a_method eq_refl).
Defined.

Lemma test_call_is_allowed :
  exists method, In method (allowed_methods test_sessionRequest) /\
                 callMatches method test_call.
Proof.
  exists {| Contract_Address := "0xabc"; selector := "transfer" |}.
  split; [left; reflexivity | split; reflexivity].
Defined.

Lemma allowedIndex_is_first_match_witness :
  (exists method, In method (allowed_methods test_sessionRequest) /\
                  callMatches method test_call)
  /\
  exists (i : nat) (method : AllowedMethod),
    allowedIndex test_sessionRequest test_call = Z.of_nat i /\
    nth_error (allowed_methods test_sessionRequest) i = Some method /\
    callMatches method test_call /\
    forall (j : nat) (other : AllowedMethod),
      (j < i)%nat ->
      nth_error (allowed_methods test_sessionRequest) j = Some other ->
      ~ callMatches other test_call.
Proof.
  split; [exact test_call_is_allowed |].
  exact (allowedIndex_is_first_match test_sessionRequest test_call
           test_call_is_allowed).
Defined.

Lemma proof_is_asked_for_leaf_of_first_match_witness :
  (forall leafHashes hashMethod,
     leaves (MerkleTree_new leafHashes hashMethod) = leafHashes)
  /\
  exists (i : nat) (method : AllowedMethod),
    nth_error (allowed_methods test_sessionRequest) i = Some method /\
    callMatches method test_call /\
    (forall (j : nat) (other : AllowedMethod),
       (j < i)%nat ->
       nth_error (allowed_methods test_sessionRequest) j = Some other ->
       ~ callMatches other test_call) /\
    js_index (leaves (buildMerkleTree test_sessionRequest))
      (allowedIndex test_sessionRequest test_call)
    = Some (computePoseidonHashOnElements
              [BNstring ALLOWED_METHOD_HASH;
               BNstring (Contract_Address method);
               BNstring (getSelectorFromName (selector method))]).
Proof.
  split; [intros leafHashes hashMethod; reflexivity |].
  exact (proof_is_asked_for_leaf_of_first_match test_sessionRequest test_call
           (fun leafHashes hashMethod => eq_refl) test_call_is_allowed).
Defined.

Lemma execute_reads_only_the_nonce_of_its_details_witness :
  d_nonce (test_feeDetails (Some (BNnumber 5))) = d_nonce test_noDetails
  /\
  OffchainSessionAccount.execute test_account test_batch None
    (test_feeDetails (Some (BNnumber 5))) []
  = OffchainSessionAccount.execute test_account test_batch None test_noDetails [].
Proof.
  split; [reflexivity |].
  exact (execute_reads_only_the_nonce_of_its_details test_account test_batch None
           (test_feeDetails (Some (BNnumber 5))) test_noDetails [] eq_refl).
Defined.

Lemma estimateMaxFee_falls_back_to_suggested_fee_witness :
  estimateMaxFee test_accountBase test_batch "0x7" [] = (Ok (BNbigint 24), [])
  /\
  estimateMaxFee test_accountBaseWithoutSimulation test_batch "0x7" []
  = (Ok (BNbigint 30), []).
Proof.
  split.
  - exact (proj1 (estimateMaxFee_falls_back_to_suggested_fee test_accountBase
                    test_batch "0x7" [])
             {| fee_estimation := {| overall_fee := BNstring "0x10" |};
                sim_suggestedMaxFee := Some 24 |} [] eq_refl).
  - exact (proj2 (estimateMaxFee_falls_back_to_suggested_fee
                    test_accountBaseWithoutSimulation test_batch "0x7" [])
             (or_intror (ex_intro _ "simulation failed" eq_refl))).
Defined.

Lemma execute_submits_when_collaborators_answer_witness :
  getChainId test_accountBase = Ok "0x534e5f5345504f4c4941"
  /\
  OffchainSessionAccount.execute test_account test_batch None test_noDetails []
  = (Ok test_response, test_walletTrace).
Proof.
  split; [reflexivity |].
  exact (execute_submits_when_collaborators_answer test_account test_batch None
           test_noDetails [] "0x534e5f5345504f4c4941" (BNnumber 7) (BNbigint 24)
           test_dappSignature ["0x3"; "0x4"; "0x5"; "0x6"] ["0x1"; "0x2"] "0x9"
           ["9"; "1"; "2"; "3"; "4"; "5"; "6"]
           eq_refl eq_refl eq_refl eq_refl eq_refl eq_refl eq_refl eq_refl).
Defined.

Lemma executeV5_hands_over_session_call_and_details_witness :
  (falsy (d_maxFee (chosenDetails
                      (Some (OffchainSessionAccountV5.Details
                               (test_feeDetails (Some (BNnumber (2 ^ 60))))))
                      test_noDetails)) = false /\
   signer_signTransaction (signer test_accountBase) [test_call; test_otherCall]
     (sessionSignerDetails test_accountInterface test_accountBase
        "0x534e5f5345504f4c4941" "0x7" (Some (BNnumber 1152921504606846976)))
     None = Ok test_dappSignature)
  /\
  OffchainSessionAccountV5.execute test_accountV5 test_batch
    (Some (OffchainSessionAccountV5.Details
             (test_feeDetails (Some (BNnumber (2 ^ 60))))))
    test_noDetails []
  = (Ok test_response,
     [AccountExecuted
        (sessionCallOf test_accountBase ["9"; "1"; "2"; "3"; "4"; "5"; "6"] None
         :: map plainCall [test_call; test_otherCall])
        {| d_nonce := Some (BNstring "0x7");
           d_maxFee := Some (BNstring "1152921504606847000");
           d_version := Some "0x1" |}]).
Proof.
  split; [split; reflexivity |].
  exact (executeV5_hands_over_session_call_and_details test_accountV5 test_batch
           (Some (OffchainSessionAccountV5.Details
                    (test_feeDetails (Some (BNnumber (2 ^ 60))))))
           test_noDetails [] "0x534e5f5345504f4c4941" (BNnumber 7)
           (BNnumber (2 ^ 60))
           test_dappSignature ["0x3"; "0x4"; "0x5"; "0x6"] ["0x1"; "0x2"] "0x9"
           ["9"; "1"; "2"; "3"; "4"; "5"; "6"]
           eq_refl eq_refl (or_introl (conj eq_refl eq_refl))
           eq_refl eq_refl eq_refl eq_refl eq_refl).
Defined.

Lemma sessionCallArgs_defined_iff_signatures_long_enough_witness :
  hasUndefinedProperty
    (sessionCallArgs "0x9" ["0x1"; "0x2"] ["0x3"; "0x4"; "0x5"; "0x6"]) = false
  /\
  ((2 <= 2)%nat /\ (4 <= 4)%nat).
Proof.
  split; [reflexivity |].
  exact (proj1 (sessionCallArgs_defined_iff_signatures_long_enough "0x9"
                  ["0x1"; "0x2"] ["0x3"; "0x4"; "0x5"; "0x6"]) eq_refl).
Defined.

Lemma both_classes_build_the_same_session_call_witness :
  OffchainSessionAccount.base test_account
  = OffchainSessionAccountV5.base test_accountV5
  /\
  match fst (OffchainSessionAccount.sessionToCall test_account test_dappSignature
               test_offchainSessionDetails []),
        fst (OffchainSessionAccountV5.sessionToCall test_accountV5
               test_dappSignature []) with
  | Ok sessionCall, Ok sessionCallV5 =>
      osc_call sessionCall = osc_call sessionCallV5 /\
      offchainSessionDetails sessionCall = Some test_offchainSessionDetails /\
      offchainSessionDetails sessionCallV5 = None
  | Throw m, Throw mV5 => m = mV5
  | _, _ => False
  end.
Proof.
  split; [reflexivity |].
  exact (both_classes_build_the_same_session_call test_account test_accountV5
           test_dappSignature test_offchainSessionDetails [] eq_refl eq_refl).
Defined.

End PipelineInstances.
